(** * verisentinel: network topology view and change-request workflow

    A shallow embedding of the two client pages
    [client/src/pages/network-topology.tsx] and
    [client/src/pages/change-management.tsx], followed by the properties
    the specification states about them.

    Conventions of the embedding:
    - JavaScript numbers that hold coordinates, widths and the zoom factor
      are rationals ([Q]); every formula keeps the operand order of the
      source, and positions are compared with Leibniz equality wherever the
      source itself writes the compared expression.
    - Identifiers ([id], [siteId]) are integers ([Z]); [toString] is the
      decimal printer.
    - JSX is a tree of SVG elements ([Svg]) or a list of controls
      ([Control]); an element guarded by [cond && <e/>] is present exactly
      when [cond] holds.
    - React state and the shared query cache are one explicit [State]
      record; event handlers are functions [State -> State]. *)

From Stdlib Require Import QArith Qminmax Lqa.
From stdpp Require Import base option list strings pretty gmap fin_maps.

Local Open Scope Q_scope.
Set Warnings "-register-all".

(** ** Shared schema types ([@shared/schema]) *)

Module Device.
Record t := mk {
  id : Z;
  name : string;
  type : string;
  deviceRole : option string;
  parentDeviceId : option Z;
  ipAddress : option string;
  vlan : option string;
  operatingSystem : option string;
  services : option string;
  status : string;
  siteId : Z
}.
End Device.

Module Site.
Record t := mk { id : Z; name : string }.
End Site.

(** [interface DeviceNode extends Device { children?: DeviceNode[] }] *)
Inductive DeviceNode :=
  mkDeviceNode (device : Device.t) (children : option (list DeviceNode)).

Definition nodeDevice (n : DeviceNode) : Device.t :=
  let 'mkDeviceNode d _ := n in d.
Definition nodeChildren (n : DeviceNode) : option (list DeviceNode) :=
  let 'mkDeviceNode _ cs := n in cs.

(** [interface TopologyNode] *)
Module TopologyNode.
Record t := mk {
  id : Z;
  name : string;
  type : string;
  devices : option (list DeviceNode)
}.
End TopologyNode.

(** [Number.prototype.toString] on an integer. *)
Definition toString (n : Z) : string := pretty n.

(** [xs.forEach((x, index) => elements.push(...))]: the elements pushed by
    the callback, in order, with the running index. *)
Definition forEachPush {A B} (f : A → nat → list B) : list A → nat → list B :=
  fix go (xs : list A) (index : nat) : list B :=
    match xs with
    | [] => []
    | x :: rest => f x index ++ go rest (S index)
    end.

(** ** The SVG output *)

Inductive PathCmd :=
| MoveTo (x y : Q)
| CurveTo (x1 y1 x2 y2 x y : Q).

Record RectAttrs := mkRect {
  rect_x : Q; rect_y : Q; rect_width : Q; rect_height : Q; rect_rx : Q;
  rect_fill : string; rect_stroke : string;
  (** the device handed to [handleDeviceClick], when the rectangle has an
      [onClick] *)
  rect_onClick : option Device.t
}.

Record CircleAttrs := mkCircle {
  cx : Q; cy : Q; r : Q; circle_fill : string;
  className : option string; opacity : option Q
}.

Inductive Svg :=
| rect (a : RectAttrs)
| circle (a : CircleAttrs)
| text (x y : Q) (content : string)
| path (key : string) (d : list PathCmd) (stroke : string)
| g (key : string) (elements : list Svg).

(** All elements of a drawing: the element itself and, for a group, the
    elements nested in it. *)
Fixpoint subelements (e : Svg) : list Svg :=
  e :: match e with
       | g _ els => concat (map subelements els)
       | _ => []
       end.

(** A pulsing circle: [className="animate-pulse"]. *)
Definition isPulsing (e : Svg) : bool :=
  match e with
  | circle a =>
      match className a with
      | Some c => String.eqb c "animate-pulse"
      | None => false
      end
  | _ => false
  end.

(** The device a clickable rectangle stands for. *)
Definition rectDevice (e : Svg) : option Device.t :=
  match e with
  | rect a => rect_onClick a
  | _ => None
  end.

(** ** [network-topology.tsx] *)

Module NetworkTopology.

(** Fill and stroke colour of a node in the hierarchy (the [let fill],
    [let stroke] assignments at the head of [renderDeviceHierarchy]). *)
Definition deviceColors (device : Device.t) : string * string :=
  if String.eqb (Device.type device) "firewall" then ("#FEF3C7", "#FF832B")
  else if String.eqb (Device.type device) "router" then ("#D1FAE5", "#42BE65")
  else if String.eqb (Device.type device) "server" then
    if String.eqb (Device.status device) "critical"
       || String.eqb (Device.status device) "down"
    then ("#FEE2E2", "#FF0000")
    else if String.eqb (Device.status device) "warning"
    then ("#FEF3C7", "#FF832B")
    else if String.eqb (Device.status device) "secure"
            || String.eqb (Device.status device) "compliant"
    then ("#D1FAE5", "#42BE65")
    else ("#CCE0FF", "#0F62FE")
  else ("#E0E7FF", "#6366F1").

Definition nodeWidth (device : Device.t) : Q :=
  if String.eqb (Device.type device) "server" then 50 else 60.
Definition nodeHeight : Q := 40.
Definition verticalSpacing : Q := 70.

(** [name.length > n ? name.substring(0, k) + '...' : name] *)
Definition label (n k : nat) (name : string) : string :=
  if (n <? String.length name)%nat
  then String.append (String.substring 0 k name) "..."
  else name.

(** The two guarded risk-indicator circles of a hierarchy node. *)
Definition riskIndicators (device : Device.t) (x y : Q) : list Svg :=
  (if String.eqb (Device.status device) "critical"
      || String.eqb (Device.status device) "down"
   then [circle (mkCircle (x + nodeWidth device / 2) (y - 10) 5 "#FF0000"
                          (Some "animate-pulse") (Some 0.6))]
   else [])
  ++
  (if String.eqb (Device.status device) "warning"
   then [circle (mkCircle (x + nodeWidth device / 2) (y - 10) 5 "#FF832B"
                          (Some "animate-pulse") (Some 0.6))]
   else []).

(** The [<g key="device-..."/>] group pushed first. *)
Definition deviceNode (device : Device.t) (x y : Q) : Svg :=
  g (String.append "device-" (toString (Device.id device)))
    ([ rect (mkRect x y (nodeWidth device) nodeHeight 5
                    (fst (deviceColors device)) (snd (deviceColors device))
                    (Some device));
       circle (mkCircle (x + nodeWidth device / 2) y 3
                        (snd (deviceColors device)) None None);
       text (x + nodeWidth device / 2) (y + 24)
            (label 6 5 (Device.name device)) ]
     ++ riskIndicators device x y).

Definition ofNat (n : nat) : Q := inject_Z (Z.of_nat n).

Definition childX (x availableWidth childWidth : Q) (index : nat) : Q :=
  x - (availableWidth / 2) + (childWidth * ofNat index) + (childWidth / 2) - 25.

Definition connPath (device : Device.t) (x y cX cY : Q) : list PathCmd :=
  [ MoveTo (x + nodeWidth device / 2) (y + nodeHeight);
    CurveTo (x + nodeWidth device / 2) (y + nodeHeight + 20)
            (cX + 25) (cY - 20)
            (cX + 25) cY ].

Fixpoint renderDeviceHierarchy (device : DeviceNode) (x y : Q) (level : nat)
    (availableWidth : Q) : Svg :=
  let 'mkDeviceNode dev children := device in
  let elements :=
    deviceNode dev x y ::
    match children with
    | Some cs =>
        if (0 <? length cs)%nat then
          let childrenCount := length cs in
          let childWidth := availableWidth / ofNat childrenCount in
          forEachPush (fun child index =>
            let cX := childX x availableWidth childWidth index in
            let cY := y + verticalSpacing in
            [ path (String.append "conn-"
                      (String.append (toString (Device.id dev))
                         (String.append "-"
                            (toString (Device.id (nodeDevice child))))))
                   (connPath dev x y cX cY) "#9CA3AF";
              renderDeviceHierarchy child cX cY (S level) (childWidth - 10) ])
            cs 0%nat
        else []
    | None => []
    end in
  g (String.append "hierarchy-" (toString (Device.id dev))) elements.

(** *** Component state and derived values *)

Definition filteredDevices (devices : option (list Device.t))
    (selectedSite selectedDeviceType : string) : option (list Device.t) :=
  (fun ds =>
     List.filter (fun device =>
       let siteMatch :=
         String.eqb selectedSite "all"
         || String.eqb (toString (Device.siteId device)) selectedSite in
       let typeMatch :=
         String.eqb selectedDeviceType "all"
         || String.eqb (Device.type device) selectedDeviceType in
       siteMatch && typeMatch) ds) <$> devices.

Definition networkDevices (filtered : option (list Device.t)) : list Device.t :=
  default []
    ((fun ds => List.filter (fun d =>
        String.eqb (Device.type d) "firewall"
        || String.eqb (Device.type d) "switch"
        || String.eqb (Device.type d) "router") ds) <$> filtered).

(** *** The diagram: static network tiers and site areas *)

Definition firewallNode (device : Device.t) : Svg :=
  let x := 370 in
  let y := 120 in
  g (String.append "firewall-" (toString (Device.id device)))
    [ rect (mkRect x y 60 40 5 "#FEF3C7" "#FF832B" (Some device));
      circle (mkCircle (x + 30) y 3 "#FF832B" None None);
      circle (mkCircle (x + 20) (y + 40) 3 "#FF832B" None None);
      circle (mkCircle (x + 40) (y + 40) 3 "#FF832B" None None);
      text (x + 40) (y + 5) "WAN";
      text (x + 15) (y + 35) "LAN1";
      text (x + 45) (y + 35) "LAN2";
      text (x + 30) (y + 24) (label 10 8 (Device.name device)) ].

Definition routerNode (device : Device.t) : Svg :=
  let x := 370 in
  let y := 190 in
  g (String.append "router-" (toString (Device.id device)))
    [ rect (mkRect x y 60 40 5 "#D1FAE5" "#42BE65" (Some device));
      circle (mkCircle (x + 30) y 3 "#42BE65" None None);
      circle (mkCircle x (y + 20) 3 "#42BE65" None None);
      circle (mkCircle (x + 60) (y + 20) 3 "#42BE65" None None);
      text (x + 30) (y + 24) (label 10 8 (Device.name device)) ].

Definition switchNode (sites : option (list Site.t)) (device : Device.t) : Svg :=
  let site :=
    sites ≫= List.find (fun s => Z.eqb (Site.id s) (Device.siteId device)) in
  let x :=
    match site with
    | Some s => if negb (Z.eqb (Site.id s) 1) then 570 else 200
    | None => 200
    end in
  let y := 320 in
  g (String.append "switch-" (toString (Device.id device)))
    [ rect (mkRect x y 60 40 5 "#E0E7FF" "#6366F1" (Some device));
      circle (mkCircle (x + 30) y 3 "#6366F1" None None);
      circle (mkCircle (x + 15) (y + 40) 3 "#6366F1" None None);
      circle (mkCircle (x + 30) (y + 40) 3 "#6366F1" None None);
      circle (mkCircle (x + 45) (y + 40) 3 "#6366F1" None None);
      text (x + 30) (y + 24) (label 10 8 (Device.name device)) ].

Definition ofType (ty : string) (ds : list Device.t) : list Device.t :=
  List.filter (fun d => String.eqb (Device.type d) ty) ds.

(** One dashed site box with the hierarchies of its top-level devices. *)
Definition siteArea (site : TopologyNode.t) (siteIndex : nat) : Svg :=
  let x := if Nat.eqb siteIndex 0 then 150 else 500 in
  let width := if Nat.eqb siteIndex 0 then 300 else 200 in
  let y := 260 in
  let height := 300 in
  g (String.append "site-" (toString (TopologyNode.id site)))
    ([ rect (mkRect x y width height 5 "#F3F4F6" "#D1D5DB" None);
       text (x + (width / 2)) (y + 20) (TopologyNode.name site) ]
     ++ match TopologyNode.devices site with
        | Some devs =>
            forEachPush (fun device deviceIndex =>
              let deviceX :=
                x + 20 + (ofNat deviceIndex * (width - 40)
                          / ofNat (Nat.max 1 (length devs))) in
              let deviceY := y + 60 in
              [ renderDeviceHierarchy device deviceX deviceY 0 (width - 40) ])
              devs 0%nat
        | None => []
        end).

(** The device-bearing part of the [<svg>]: the three static tiers, then
    the site areas.  (The Internet ellipse, the fixed connection lines
    and the legend carry no device and are left out.) *)
Definition diagram (sites : option (list Site.t))
    (devices : option (list Device.t))
    (topology : option (list TopologyNode.t))
    (selectedSite selectedDeviceType : string) : list Svg :=
  let nds :=
    networkDevices (filteredDevices devices selectedSite selectedDeviceType) in
  map firewallNode (ofType "firewall" nds)
  ++ map routerNode (ofType "router" nds)
  ++ map (switchNode sites) (ofType "switch" nds)
  ++ match topology with
     | Some ts => forEachPush (fun site siteIndex => [siteArea site siteIndex]) ts 0%nat
     | None => []
     end.

Definition initialZoom : Q := 1.
Definition handleZoomIn (prev : Q) : Q := Qmin (prev + 0.1) 2.
Definition handleZoomOut (prev : Q) : Q := Qmax (prev - 0.1) 0.5.

(** [disabled={zoom >= 2}] and [disabled={zoom <= 0.5}] of the two zoom
    buttons. *)
Definition zoomInDisabled (zoom : Q) : bool := Qle_bool 2 zoom.
Definition zoomOutDisabled (zoom : Q) : bool := Qle_bool zoom 0.5.

Inductive ZoomAction := ZoomIn | ZoomOut.

Definition zoomStep (zoom : Q) (a : ZoomAction) : Q :=
  match a with
  | ZoomIn => handleZoomIn zoom
  | ZoomOut => handleZoomOut zoom
  end.

(** The zoom state after a sequence of button clicks on a fresh page. *)
Definition zoomAfter (actions : list ZoomAction) : Q :=
  fold_left zoomStep actions initialZoom.


(** *** Device details ([handleDeviceClick]) *)

(** [const serverDevices = filteredDevices?.filter(d => d.type === 'server') || []] *)
Definition serverDevices (filtered : option (list Device.t)) : list Device.t :=
  default []
    ((fun ds => List.filter (fun d => String.eqb (Device.type d) "server") ds)
       <$> filtered).

(** [interface DeviceDetails]: the clicked device's own fields, spread, and
    the three joined fields. *)
Record DeviceDetails := mkDeviceDetails {
  details_device : Device.t;
  siteName : option string;
  parentDevice : option Device.t;
  childDevices : list Device.t
}.

(** The value handed to [setSelectedDevice]; [setDetailsOpen(true)]
    follows.  [device.parentDeviceId ? ... : undefined] tests truthiness:
    [null] and [0] both take the [undefined] branch. *)
Definition handleDeviceClick (sites : option (list Site.t))
    (devices : option (list Device.t)) (device : Device.t) : DeviceDetails :=
  let site :=
    sites ≫= List.find (fun s => Z.eqb (Site.id s) (Device.siteId device)) in
  let parent :=
    match Device.parentDeviceId device with
    | Some pid =>
        if Z.eqb pid 0 then None
        else devices ≫= List.find (fun d => Z.eqb (Device.id d) pid)
    | None => None
    end in
  let children :=
    default []
      ((fun ds =>
          List.filter (fun d =>
            match Device.parentDeviceId d with
            | Some p => Z.eqb p (Device.id device)
            | None => false
            end) ds) <$> devices) in
  mkDeviceDetails device (Site.name <$> site) parent children.

End NetworkTopology.

(** ** [change-management.tsx] *)

Module User.
Record t := mk { id : Z; username : string; role : string }.
End User.

Module ChangeRequest.
Record t := mk {
  id : Z;
  title : string;
  description : string;
  status : string;
  requestedBy : Z;
  requestedAt : string;
  approvedAt : option string;
  implementedAt : option string
}.
End ChangeRequest.

Module ChangeType.
Inductive t := standard | firewall | server | network | emergency.
End ChangeType.

Module RiskLevel.
Inductive t := low | medium | high | critical.
End RiskLevel.

Module FirewallAction.
Inductive t := allow | deny | nat | other.
End FirewallAction.

(** The values held by the form ([useForm]); a field declared
    [.optional()] or [.default(...)] may be [undefined]. *)
Module FormValues.
Record t := mk {
  title : string;
  description : string;
  type : ChangeType.t;
  riskLevel : option RiskLevel.t;
  affectedSystems : option string;
  backoutPlan : option string;
  sourceIp : option string;
  destinationIp : option string;
  portServices : option string;
  action : option FirewallAction.t;
  firewallRules : option string
}.
End FormValues.

(** [z.infer<typeof requestFormSchema>]: the parsed form data. *)
Module RequestData.
Record t := mk {
  title : string;
  description : string;
  type : ChangeType.t;
  riskLevel : RiskLevel.t;
  affectedSystems : option string;
  backoutPlan : option string;
  sourceIp : option string;
  destinationIp : option string;
  portServices : option string;
  action : option FirewallAction.t;
  firewallRules : option string
}.
End RequestData.

Module ChangeManagement.

Inductive FieldName :=
| title | description | type | riskLevel | affectedSystems | backoutPlan
| sourceIp | destinationIp | portServices | action | firewallRules.

Record Issue := mkIssue { issue_path : FieldName; issue_message : string }.

(** [z.string().min(1, message)] at field [path]. *)
Definition string_min1 (path : FieldName) (message : string) (s : string)
    : list Issue :=
  if (String.length s <? 1)%nat then [mkIssue path message] else [].

(** [requestFormSchema.safeParse]: all issues, or the parsed data.  The
    enumerated fields are typed by their enumerations and the optional
    string fields accept any string or [undefined], so they raise no
    issue. *)
Definition requestFormSchema (v : FormValues.t) : list Issue + RequestData.t :=
  match string_min1 title "Title is required" (FormValues.title v)
        ++ string_min1 description "Description is required"
             (FormValues.description v)
  with
  | [] =>
      inr (RequestData.mk
             (FormValues.title v) (FormValues.description v)
             (FormValues.type v)
             (default RiskLevel.medium (FormValues.riskLevel v))
             (FormValues.affectedSystems v) (FormValues.backoutPlan v)
             (FormValues.sourceIp v) (FormValues.destinationIp v)
             (FormValues.portServices v) (FormValues.action v)
             (FormValues.firewallRules v))
  | issues => inl issues
  end.

Definition defaultValues : FormValues.t :=
  FormValues.mk "Firewall Rule Change" "" ChangeType.firewall
    (Some RiskLevel.medium) (Some "") (Some "") (Some "") (Some "") (Some "")
    (Some FirewallAction.allow) (Some "").

(** *** The query cache and the requests sent to the server *)

Inductive QueryData :=
| ChangeRequests (l : list ChangeRequest.t)
| OtherData (json : string).

Record Query := mkQuery { data : option QueryData; isInvalidated : bool }.

Inductive Body :=
| NoBody
| EmptyObject
| CreateBody (data : RequestData.t).

Record ApiRequest := mkApiRequest { method : string; url : string; body : Body }.

Inductive Variant := DefaultVariant | Destructive.

Record Toast := mkToast {
  toast_title : string; toast_description : string; toast_variant : Variant
}.

Definition changeRequestsKey : string := "/api/change-requests".

Definition approveUrl (id : Z) : string :=
  String.append "/api/change-requests/" (String.append (toString id) "/approve").
Definition implementUrl (id : Z) : string :=
  String.append "/api/change-requests/" (String.append (toString id) "/implement").

(** *** Component state *)

Record State := mkState {
  dialogOpen : bool;
  activeTab : string;
  selectedRequest : option ChangeRequest.t;
  detailsOpen : bool;
  user : option User.t;
  formValues : FormValues.t;
  formErrors : list Issue;
  createPending : bool;
  approvePending : bool;
  implementPending : bool;
  (** [queryClient]: the cache shared by all pages *)
  queries : gmap string Query;
  (** every [toast(...)] call so far, oldest first *)
  toasts : list Toast;
  (** every request sent so far, oldest first *)
  requests : list ApiRequest
}.

Definition setDialogOpen (b : bool) (st : State) : State :=
  mkState b (activeTab st) (selectedRequest st) (detailsOpen st) (user st)
    (formValues st) (formErrors st) (createPending st) (approvePending st)
    (implementPending st) (queries st) (toasts st) (requests st).
Definition setActiveTab (tab : string) (st : State) : State :=
  mkState (dialogOpen st) tab (selectedRequest st) (detailsOpen st) (user st)
    (formValues st) (formErrors st) (createPending st) (approvePending st)
    (implementPending st) (queries st) (toasts st) (requests st).
Definition setSelectedRequest (r : option ChangeRequest.t) (st : State) : State :=
  mkState (dialogOpen st) (activeTab st) r (detailsOpen st) (user st)
    (formValues st) (formErrors st) (createPending st) (approvePending st)
    (implementPending st) (queries st) (toasts st) (requests st).
Definition setDetailsOpen (b : bool) (st : State) : State :=
  mkState (dialogOpen st) (activeTab st) (selectedRequest st) b (user st)
    (formValues st) (formErrors st) (createPending st) (approvePending st)
    (implementPending st) (queries st) (toasts st) (requests st).
Definition setForm (v : FormValues.t) (errs : list Issue) (st : State) : State :=
  mkState (dialogOpen st) (activeTab st) (selectedRequest st) (detailsOpen st)
    (user st) v errs (createPending st) (approvePending st)
    (implementPending st) (queries st) (toasts st) (requests st).
Definition setCreatePending (b : bool) (st : State) : State :=
  mkState (dialogOpen st) (activeTab st) (selectedRequest st) (detailsOpen st)
    (user st) (formValues st) (formErrors st) b (approvePending st)
    (implementPending st) (queries st) (toasts st) (requests st).
Definition setApprovePending (b : bool) (st : State) : State :=
  mkState (dialogOpen st) (activeTab st) (selectedRequest st) (detailsOpen st)
    (user st) (formValues st) (formErrors st) (createPending st) b
    (implementPending st) (queries st) (toasts st) (requests st).
Definition setImplementPending (b : bool) (st : State) : State :=
  mkState (dialogOpen st) (activeTab st) (selectedRequest st) (detailsOpen st)
    (user st) (formValues st) (formErrors st) (createPending st)
    (approvePending st) b (queries st) (toasts st) (requests st).
Definition setQueries (q : gmap string Query) (st : State) : State :=
  mkState (dialogOpen st) (activeTab st) (selectedRequest st) (detailsOpen st)
    (user st) (formValues st) (formErrors st) (createPending st)
    (approvePending st) (implementPending st) q (toasts st) (requests st).

(** [toast({...})] *)
Definition toast (t : Toast) (st : State) : State :=
  mkState (dialogOpen st) (activeTab st) (selectedRequest st) (detailsOpen st)
    (user st) (formValues st) (formErrors st) (createPending st)
    (approvePending st) (implementPending st) (queries st)
    (toasts st ++ [t]) (requests st).

(** [apiRequest(method, url, body)] and the query function's fetch. *)
Definition send (rq : ApiRequest) (st : State) : State :=
  mkState (dialogOpen st) (activeTab st) (selectedRequest st) (detailsOpen st)
    (user st) (formValues st) (formErrors st) (createPending st)
    (approvePending st) (implementPending st) (queries st) (toasts st)
    (requests st ++ [rq]).

(** [queryClient.invalidateQueries({ queryKey: [key] })]: the cached entry
    keeps its data, is marked invalidated, and is fetched again. *)
Definition invalidateQueries (key : string) (st : State) : State :=
  let st' :=
    setQueries (alter (fun q => mkQuery (data q) true) key (queries st)) st in
  match queries st !! key with
  | Some _ => send (mkApiRequest "GET" key NoBody) st'
  | None => st'
  end.

(** [form.reset()] *)
Definition form_reset (st : State) : State := setForm defaultValues [] st.

(** *** Mutations: [mutate] and the [onSuccess] / [onError] callbacks *)

Inductive MutationKind := Create | Approve | Implement.

Definition createOnSuccess (st : State) : State :=
  toast (mkToast "Change Request Created"
           "The change request has been successfully created and is pending approval."
           DefaultVariant)
    (form_reset (setDialogOpen false (invalidateQueries changeRequestsKey st))).

Definition createOnError (message : string) (st : State) : State :=
  toast (mkToast "Failed to Create Change Request" message Destructive) st.

Definition approveOnSuccess (st : State) : State :=
  toast (mkToast "Change Request Approved"
           "The change request has been approved successfully." DefaultVariant)
    (setDetailsOpen false (invalidateQueries changeRequestsKey st)).

Definition approveOnError (message : string) (st : State) : State :=
  toast (mkToast "Failed to Approve Change Request" message Destructive) st.

Definition implementOnSuccess (st : State) : State :=
  toast (mkToast "Change Request Implemented"
           "The change request has been marked as implemented." DefaultVariant)
    (setDetailsOpen false (invalidateQueries changeRequestsKey st)).

Definition implementOnError (message : string) (st : State) : State :=
  toast (mkToast "Failed to Implement Change Request" message Destructive) st.

(** The success callbacks take no argument: the server's response is
    dropped. *)
Definition onSuccess (k : MutationKind) (response : ChangeRequest.t)
    (st : State) : State :=
  match k with
  | Create => createOnSuccess st
  | Approve => approveOnSuccess st
  | Implement => implementOnSuccess st
  end.

Definition onError (k : MutationKind) (message : string) (st : State) : State :=
  match k with
  | Create => createOnError message st
  | Approve => approveOnError message st
  | Implement => implementOnError message st
  end.

Definition setPending (k : MutationKind) (b : bool) (st : State) : State :=
  match k with
  | Create => setCreatePending b st
  | Approve => setApprovePending b st
  | Implement => setImplementPending b st
  end.

(** [createRequestMutation.mutate(data)] *)
Definition handleCreateRequest (d : RequestData.t) (st : State) : State :=
  send (mkApiRequest "POST" "/api/change-requests" (CreateBody d))
    (setCreatePending true st).

(** [approveRequestMutation.mutate(id)] *)
Definition handleApproveRequest (id : Z) (st : State) : State :=
  send (mkApiRequest "PUT" (approveUrl id) EmptyObject)
    (setApprovePending true st).

(** [implementRequestMutation.mutate(id)] *)
Definition handleImplementRequest (id : Z) (st : State) : State :=
  send (mkApiRequest "PUT" (implementUrl id) EmptyObject)
    (setImplementPending true st).

Definition handleViewDetails (request : ChangeRequest.t) (st : State) : State :=
  setDetailsOpen true (setSelectedRequest (Some request) st).

(** [form.handleSubmit(handleCreateRequest)]: validate, then either show
    the issues inline or hand the parsed data on. *)
Definition handleSubmit (st : State) : State :=
  match requestFormSchema (formValues st) with
  | inl issues => setForm (formValues st) issues st
  | inr d => handleCreateRequest d (setForm (formValues st) [] st)
  end.

(** *** Rendering *)

Inductive Action :=
| OpenNewRequest
| Submit
| SelectTab (tab : string)
| ViewDetails (request : ChangeRequest.t)
| ApproveRequest (id : Z)
| ImplementRequest (id : Z).

Record Control := mkControl {
  label : string; onClick : Action; disabled : bool
}.

(** [user?.role === r] *)
Definition roleIs (u : option User.t) (r : string) : bool :=
  match u with
  | Some usr => String.eqb (User.role usr) r
  | None => false
  end.

Definition changeRequests (st : State) : option (list ChangeRequest.t) :=
  match data <$> queries st !! changeRequestsKey with
  | Some (Some (ChangeRequests l)) => Some l
  | _ => None
  end.

Definition isLoading (st : State) : bool :=
  match changeRequests st with
  | Some _ => false
  | None => true
  end.

Definition filteredRequests (st : State) : option (list ChangeRequest.t) :=
  (fun rs =>
     List.filter (fun request =>
       if String.eqb (activeTab st) "all" then true
       else String.eqb (ChangeRequest.status request) (activeTab st)) rs)
  <$> changeRequests st.

(** The approve block of the details dialog (the expression guarding
    "Approve Request"). *)
Definition approveSection (st : State) (selected : ChangeRequest.t)
    : list Control :=
  if String.eqb (ChangeRequest.status selected) "pending"
     && (roleIs (user st) "admin" || roleIs (user st) "approver")
  then [mkControl "Approve Request"
          (ApproveRequest (ChangeRequest.id selected)) (approvePending st)]
  else [].

(** The implement block (the expression guarding "Mark as Implemented"). *)
Definition implementSection (st : State) (selected : ChangeRequest.t)
    : list Control :=
  if String.eqb (ChangeRequest.status selected) "approved"
     && (roleIs (user st) "admin" || roleIs (user st) "implementer")
  then [mkControl "Mark as Implemented"
          (ImplementRequest (ChangeRequest.id selected)) (implementPending st)]
  else [].

Definition detailsDialog (st : State) : list Control :=
  match selectedRequest st with
  | Some selected => approveSection st selected ++ implementSection st selected
  | None => []
  end.

(** The clickable controls of the page, top to bottom.  The content of
    both dialogs is listed whether or not the dialog is open: a control
    absent from this list is absent from the page. *)
Definition render (st : State) : list Control :=
  if isLoading st then []
  else
    [ mkControl "New Request" OpenNewRequest false;
      mkControl "Submit Change Request" Submit (createPending st) ]
    ++ map (fun tab => mkControl (fst tab) (SelectTab (snd tab)) false)
         [ ("All Requests", "all"); ("Pending", "pending");
           ("Approved", "approved"); ("Implemented", "implemented");
           ("Rejected", "rejected") ]
    ++ map (fun request => mkControl "View" (ViewDetails request) false)
         (default [] (filteredRequests st))
    ++ detailsDialog st.

(** *** Events *)

Inductive Event :=
| Click (i : nat)                      (** the [i]-th rendered control *)
| EditForm (v : FormValues.t)          (** typing into the form *)
| OnOpenChangeDialog (b : bool)        (** the dialogs' [onOpenChange] *)
| OnOpenChangeDetails (b : bool)
| Succeeded (k : MutationKind) (response : ChangeRequest.t)
| Failed (k : MutationKind) (message : string)
| Fetched (key : string) (d : QueryData).  (** a query's fetch has returned *)

Definition perform (a : Action) (st : State) : State :=
  match a with
  | OpenNewRequest => setDialogOpen true st
  | Submit => handleSubmit st
  | SelectTab tab => setActiveTab tab st
  | ViewDetails request => handleViewDetails request st
  | ApproveRequest id => handleApproveRequest id st
  | ImplementRequest id => handleImplementRequest id st
  end.

Definition step (st : State) (ev : Event) : State :=
  match ev with
  | Click i =>
      match render st !! i with
      | Some c => if disabled c then st else perform (onClick c) st
      | None => st
      end
  | EditForm v => setForm v (formErrors st) st
  | OnOpenChangeDialog b => setDialogOpen b st
  | OnOpenChangeDetails b => setDetailsOpen b st
  | Succeeded k response => onSuccess k response (setPending k false st)
  | Failed k message => onError k message (setPending k false st)
  | Fetched key d => setQueries (<[key := mkQuery (Some d) false]> (queries st)) st
  end.

Definition run (st : State) (evs : list Event) : State := fold_left step evs st.

(** The page as first mounted for [u]: nothing cached yet, the list being
    fetched. *)
Definition initialState (u : option User.t) : State :=
  mkState false "all" None false u defaultValues [] false false false
    {[ changeRequestsKey := mkQuery None false ]} []
    [mkApiRequest "GET" changeRequestsKey NoBody].

End ChangeManagement.

(** ** Vocabulary of the properties

    Observations on the drawing and on the page state in which the
    properties below are stated, and the sample data of the worked
    instances. *)

Section TopologyVocabulary.
Import NetworkTopology.

Definition zoomInRange (z : Q) : Prop := 0.5 <= z ∧ z <= 2.

(** The predicate of the specification. *)
Definition matchesFilter (S T : string) (d : Device.t) : Prop :=
  (S = "all" ∨ toString (Device.siteId d) = S)
  ∧ (T = "all" ∨ Device.type d = T).

#[global] Instance matchesFilter_dec S T d : Decision (matchesFilter S T d).
Proof. unfold matchesFilter. apply _. Defined.

Definition switch5 : Device.t :=
  Device.mk 5 "sw-5" "switch" None None None None None None "warning" 1.

(** The elements [renderDeviceHierarchy] pushes for the children. *)
Definition childElements (dev : Device.t) (cs : list DeviceNode)
    (x y : Q) (level : nat) (availableWidth : Q) : list Svg :=
  forEachPush (fun child index =>
    [ path (String.append "conn-"
              (String.append (toString (Device.id dev))
                 (String.append "-" (toString (Device.id (nodeDevice child))))))
           (connPath dev x y
              (childX x availableWidth (availableWidth / ofNat (length cs)) index)
              (y + verticalSpacing)) "#9CA3AF";
      renderDeviceHierarchy child
        (childX x availableWidth (availableWidth / ofNat (length cs)) index)
        (y + verticalSpacing) (S level)
        (availableWidth / ofNat (length cs) - 10) ])
    cs 0%nat.

(** Top-left corner of the node rectangle at the root of a drawn
    hierarchy. *)
Definition hierarchyOrigin (e : Svg) : option (Q * Q) :=
  match e with
  | g _ (g _ (rect a :: _) :: _) => Some (rect_x a, rect_y a)
  | _ => None
  end.

(** First and last point of a connector path. *)
Definition pathStart (d : list PathCmd) : option (Q * Q) :=
  match d with
  | MoveTo x y :: _ => Some (x, y)
  | _ => None
  end.

Definition pathEnd (d : list PathCmd) : option (Q * Q) :=
  match last d with
  | Some (CurveTo _ _ _ _ x y) => Some (x, y)
  | Some (MoveTo x y) => Some (x, y)
  | None => None
  end.

Definition atRisk (status : string) : Prop :=
  status = "critical" ∨ status = "down" ∨ status = "warning".

(** Fill colours of the pulsing circles among [els]. *)
Definition pulseFills (els : list Svg) : list string :=
  omap (fun e =>
          match e with
          | circle a => if isPulsing e then Some (circle_fill a) else None
          | _ => None
          end) els.

Definition expectedIndicator (status : string) : list string :=
  if bool_decide (status = "critical" ∨ status = "down") then ["#FF0000"]
  else if bool_decide (status = "warning") then ["#FF832B"]
  else [].

(** A group that draws device [d] (it holds the clickable rectangle of
    [d]) carries the pulsing indicator exactly when [d] is at risk, in
    the colour of its status. *)
Definition indicatorCorrect (e : Svg) : Prop :=
  ∀ key els a d,
    e = g key els → rect a ∈ els → rect_onClick a = Some d →
    (existsb isPulsing els = true ↔ atRisk (Device.status d))
    ∧ pulseFills els = expectedIndicator (Device.status d).

Definition riskIndicatorClaim (drawing : list Svg) : Prop :=
  ∀ top e, top ∈ drawing → e ∈ subelements top → indicatorCorrect e.

Definition headquarters : Site.t := Site.mk 1 "HQ".

Definition firewall1 : Device.t :=
  Device.mk 1 "fw-1" "firewall" None None None None None None "critical" 1.

Definition server7 : Device.t :=
  Device.mk 7 "db-7" "server" None (Some 5%Z) None None None None "critical" 1.
Definition server8 : Device.t :=
  Device.mk 8 "web-8" "server" None (Some 5%Z) None None None None "warning" 1.
Definition server9 : Device.t :=
  Device.mk 9 "app-9" "server" None (Some 5%Z) None None None None "active" 1.

Definition switch6 : Device.t :=
  Device.mk 6 "sw-6" "switch" None (Some 5%Z) None None None None "active" 1.

(** A switch with two servers below it. *)
Definition rack : list DeviceNode :=
  [mkDeviceNode server7 None; mkDeviceNode server8 (Some [])].


(** The devices of a hierarchy, parent before children, children in their
    given order. *)
Fixpoint preorder (t : DeviceNode) : list Device.t :=
  nodeDevice t ::
  match nodeChildren t with
  | Some cs => concat (map preorder cs)
  | None => []
  end.

(** The devices a drawing shows: one per clickable rectangle, in document
    order. *)
Definition drawnDevices (e : Svg) : list Device.t :=
  omap rectDevice (subelements e).

(** The devices a list of elements shows. *)
Definition allDrawn (drawing : list Svg) : list Device.t :=
  concat (map drawnDevices drawing).

(** A callback that pushes a connector path and the child's hierarchy, as
    the one of [renderDeviceHierarchy] does. *)
Definition pushesConnectorAndChild (f : DeviceNode → nat → list Svg) : Prop :=
  ∀ c i, ∃ key d st cx cy lvl W',
    f c i = [path key d st; renderDeviceHierarchy c cx cy lvl W'].

(** The connector paths of a drawing. *)
Definition isPath (e : Svg) : bool :=
  match e with
  | path _ _ _ => true
  | _ => false
  end.

Definition connectorCount (e : Svg) : nat :=
  length (List.filter isPath (subelements e)).

(** The devices of the site areas: every site's top-level hierarchies. *)
Definition topologyDevices (topology : option (list TopologyNode.t))
    : list Device.t :=
  concat (map (fun site =>
                 concat (map preorder (default [] (TopologyNode.devices site))))
              (default [] topology)).

Definition isNetworkType (ty : string) : Prop :=
  ty = "firewall" ∨ ty = "switch" ∨ ty = "router".

(** Two switches in a chain below a firewall, with a server at the end. *)
Definition chain : DeviceNode :=
  mkDeviceNode firewall1
    (Some [mkDeviceNode switch5
             (Some [mkDeviceNode switch6 (Some [mkDeviceNode server7 None]);
                    mkDeviceNode server8 None])]).

End TopologyVocabulary.

Section WorkflowVocabulary.
Import ChangeManagement.

(** The requests [step] adds to the log. *)
Definition issued (st : State) (ev : Event) : list ApiRequest :=
  drop (length (requests st)) (requests (step st ev)).

(** The action run by [ev]: the handler of an enabled, rendered control. *)
Definition runsAction (st : State) (ev : Event) (a : Action) : Prop :=
  ∃ i c, ev = Click i ∧ render st !! i = Some c
         ∧ disabled c = false ∧ onClick c = a.

Definition putApprove (id : Z) : ApiRequest :=
  mkApiRequest "PUT" (approveUrl id) EmptyObject.
Definition putImplement (id : Z) : ApiRequest :=
  mkApiRequest "PUT" (implementUrl id) EmptyObject.

(** The requests an action sends. *)
Definition sentBy (a : Action) (st : State) : list ApiRequest :=
  match a with
  | ApproveRequest id => [putApprove id]
  | ImplementRequest id => [putImplement id]
  | Submit =>
      match requestFormSchema (formValues st) with
      | inr d => [mkApiRequest "POST" "/api/change-requests" (CreateBody d)]
      | inl _ => []
      end
  | _ => []
  end.

Definition alice : User.t := User.mk 1 "alice" "approver".
Definition bob : User.t := User.mk 2 "bob" "implementer".

Definition cr1 (status : string) : ChangeRequest.t :=
  ChangeRequest.mk 1 "Open port 443" "Allow HTTPS" status 2
    "2025-01-01T00:00:00Z" None None.

(** The page after the list [l] has arrived and control [i] was clicked. *)
Definition viewing (u : option User.t) (l : list ChangeRequest.t)
    (i : nat) : State :=
  run (initialState u) [Fetched changeRequestsKey (ChangeRequests l); Click i].

Definition invalidated (q : Query) : Query := mkQuery (data q) true.

Definition isFetched (ev : Event) : bool :=
  match ev with
  | Fetched _ _ => true
  | _ => false
  end.

Definition errorTitle (k : MutationKind) : string :=
  match k with
  | Create => "Failed to Create Change Request"
  | Approve => "Failed to Approve Change Request"
  | Implement => "Failed to Implement Change Request"
  end.

(** An approver looks at a pending request and clicks "Approve Request". *)
Definition approverViewsPending : State :=
  viewing (Some alice) [cr1 "pending"] 7.

Definition httpsRule : FormValues.t :=
  FormValues.mk "Firewall Rule Change" "Allow HTTPS to the web tier"
    ChangeType.firewall (Some RiskLevel.medium) (Some "") (Some "")
    (Some "") (Some "") (Some "") (Some FirewallAction.allow) (Some "").


Definition isSettled (ev : Event) : bool :=
  match ev with
  | Succeeded _ _ | Failed _ _ => true
  | _ => false
  end.

Definition isCreateSettled (ev : Event) : bool :=
  match ev with
  | Succeeded Create _ | Failed Create _ => true
  | _ => false
  end.

Definition isPost (rq : ApiRequest) : bool := String.eqb (method rq) "POST".

(** An approve or implement control. *)
Definition isTransition (c : Control) : bool :=
  match onClick c with
  | ApproveRequest _ | ImplementRequest _ => true
  | _ => false
  end.

(** POSTs sent so far, and the count of one in-flight mutation. *)
Definition posts (st : State) : nat := length (List.filter isPost (requests st)).

Definition inFlight (b : bool) : nat := if b then 1%nat else 0%nat.

(** The rows of the table under the active tab. *)
Definition shownUnderTab (tab : string) (r : ChangeRequest.t) : Prop :=
  tab = "all" ∨ ChangeRequest.status r = tab.

#[global] Instance shownUnderTab_dec tab r : Decision (shownUnderTab tab r).
Proof. unfold shownUnderTab. apply _. Defined.

(** An administrator. *)
Definition carol : User.t := User.mk 3 "carol" "admin".

(** The page with two requests loaded, nothing selected. *)
Definition listLoaded : State :=
  run (initialState (Some alice))
    [Fetched changeRequestsKey (ChangeRequests [cr1 "pending"; cr1 "approved"])].

(** A server change entered in the form without touching the hidden
    firewall fields. *)
Definition patchServers : FormValues.t :=
  FormValues.mk "Patch servers" "Monthly patch run" ChangeType.server None
    (Some "db-7, web-8") (Some "") (Some "") (Some "") (Some "")
    (Some FirewallAction.allow) (Some "").


End WorkflowVocabulary.

(** * Properties *)

(** ** General lemmas *)

Lemma String_eqb_true (s t : string) : String.eqb s t = true ↔ s = t.
Proof. apply String.eqb_eq. Qed.

Lemma String_eqb_false (s t : string) : String.eqb s t = false ↔ s ≠ t.
Proof. apply String.eqb_neq. Qed.

(** [Array.prototype.filter] with a boolean callback selects the elements
    satisfying the proposition the callback decides. *)
Lemma List_filter_decide {A} (f : A → bool) (P : A → Prop)
    `{!∀ x, Decision (P x)} (l : list A) :
  (∀ x, f x = true ↔ P x) → List.filter f l = filter P l.
Proof.
  intros Hf. induction l as [|a l IH]; [done|].
  cbn [List.filter]. rewrite filter_cons, IH.
  destruct (f a) eqn:Ha; case_decide as HP; try done.
  - apply Hf in Ha. done.
  - apply Hf in HP. congruence.
Qed.

Lemma List_filter_all {A} (f : A → bool) (l : list A) :
  (∀ x, f x = true) → List.filter f l = l.
Proof.
  intros Hf. induction l as [|a l IH]; [done|].
  cbn [List.filter]. by rewrite Hf, IH.
Qed.

(** ** Zoom *)

Section Zoom.
Import NetworkTopology.

Lemma handleZoomIn_inRange z : zoomInRange z → zoomInRange (handleZoomIn z).
Proof.
  intros [Hlo Hhi]. unfold handleZoomIn. split.
  - apply Q.min_glb; [|done].
    apply Qle_trans with (1 := Hlo).
    rewrite <- (Qplus_0_r z) at 1. apply Qplus_le_r. done.
  - apply Q.le_min_r.
Qed.

Lemma handleZoomOut_inRange z : zoomInRange z → zoomInRange (handleZoomOut z).
Proof.
  intros [Hlo Hhi]. unfold handleZoomOut. split.
  - apply Q.le_max_r.
  - apply Q.max_lub; [|done].
    apply Qle_trans with (2 := Hhi).
    rewrite <- (Qplus_0_r z) at 2. apply Qplus_le_r. done.
Qed.

Lemma zoomStep_inRange z a : zoomInRange z → zoomInRange (zoomStep z a).
Proof.
  destruct a; [apply handleZoomIn_inRange | apply handleZoomOut_inRange].
Qed.

Lemma fold_zoomStep_inRange actions z :
  zoomInRange z → zoomInRange (fold_left zoomStep actions z).
Proof.
  revert z. induction actions as [|a actions IH]; intros z Hz; [done|].
  cbn [fold_left]. apply IH, zoomStep_inRange, Hz.
Qed.

(** C10. The zoom level starts at 1; a zoom-in click replaces [z] by
    [min (z + 0.1) 2] and a zoom-out click by [max (z - 0.1) 0.5]; after
    any sequence of clicks the zoom level lies in [[0.5, 2]]. *)
Theorem zoom_always_within_bounds (actions : list ZoomAction) :
  initialZoom = 1
  ∧ (∀ z, zoomStep z ZoomIn = Qmin (z + 0.1) 2)
  ∧ (∀ z, zoomStep z ZoomOut = Qmax (z - 0.1) 0.5)
  ∧ 0.5 <= zoomAfter actions ∧ zoomAfter actions <= 2.
Proof.
  split; [done|]. split; [done|]. split; [done|].
  apply fold_zoomStep_inRange. by split.
Qed.

Example zoom_in_eleven_times :
  zoomAfter (replicate 11 ZoomIn) = 2.
Proof. vm_compute. reflexivity. Qed.

Example zoom_out_six_times :
  zoomAfter (replicate 6 ZoomOut) = 0.5.
Proof. vm_compute. reflexivity. Qed.
End Zoom.

(** ** Device filter *)

Section Filter.
Import NetworkTopology.

Lemma siteMatch_typeMatch_decide S T (d : Device.t) :
  (String.eqb S "all" || String.eqb (toString (Device.siteId d)) S)
  && (String.eqb T "all" || String.eqb (Device.type d) T) = true
  ↔ matchesFilter S T d.
Proof.
  unfold matchesFilter.
  rewrite andb_true_iff, !orb_true_iff, !String_eqb_true. done.
Qed.

Lemma filteredDevices_filter (devices : option (list Device.t)) (S T : string) :
  filteredDevices devices S T = filter (matchesFilter S T) <$> devices.
Proof.
  unfold filteredDevices. destruct devices as [ds|]; [|done].
  cbn [fmap option_fmap option_map]. f_equal.
  apply List_filter_decide. intros d. apply siteMatch_typeMatch_decide.
Qed.

(** Membership form: a device is kept exactly when it is in the list and
    passes both tests. *)
Lemma elem_of_filteredDevices ds S T fs d :
  filteredDevices (Some ds) S T = Some fs →
  d ∈ fs ↔ matchesFilter S T d ∧ d ∈ ds.
Proof.
  rewrite filteredDevices_filter. cbn. intros [= <-]. apply list_elem_of_filter.
Qed.

(** C3. The filtered list is the device list restricted to the devices
    [d] with (S = "all" or toString(d.siteId) = S) and (T = "all" or
    d.type = T), in the order of the device list; with "all" chosen for a
    dimension only the other dimension's test remains, and with "all"
    for both the list is returned as it is. *)
Theorem filteredDevices_exact (devices : option (list Device.t)) (S T : string) :
  filteredDevices devices S T = filter (matchesFilter S T) <$> devices
  ∧ filteredDevices devices "all" T
    = filter (λ d, T = "all" ∨ Device.type d = T) <$> devices
  ∧ filteredDevices devices S "all"
    = filter (λ d, S = "all" ∨ toString (Device.siteId d) = S) <$> devices
  ∧ filteredDevices devices "all" "all" = devices.
Proof.
  split; [apply filteredDevices_filter|].
  unfold filteredDevices.
  destruct devices as [ds|]; cbn [fmap option_fmap option_map]; [|done].
  repeat split; f_equal.
  - apply List_filter_decide. intros d. cbn.
    rewrite orb_true_iff, !String_eqb_true. done.
  - apply List_filter_decide. intros d.
    rewrite andb_true_iff, !orb_true_iff, !String_eqb_true. cbn. tauto.
  - apply List_filter_all. done.
Qed.

Example switch5_site_1 :
  filteredDevices (Some [switch5]) "1" "all" = Some [switch5].
Proof. reflexivity. Qed.

Example switch5_site_2 :
  filteredDevices (Some [switch5]) "2" "all" = Some [].
Proof. reflexivity. Qed.
End Filter.

(** ** Layout engine *)

Lemma DeviceNode_tree_ind (P : DeviceNode → Prop) :
  (∀ dev, P (mkDeviceNode dev None)) →
  (∀ dev cs, Forall P cs → P (mkDeviceNode dev (Some cs))) →
  ∀ n, P n.
Proof.
  intros Hleaf Hnode. fix IH 1. intros [dev [cs|]]; [|apply Hleaf].
  apply Hnode. induction cs as [|c cs IHcs]; constructor; [apply IH | apply IHcs].
Qed.

Lemma elem_of_forEachPush {A B} (f : A → nat → list B) xs k b :
  b ∈ forEachPush f xs k → ∃ x i, x ∈ xs ∧ b ∈ f x i.
Proof.
  revert k. induction xs as [|x xs IH]; intros k; cbn.
  - intros H. by apply elem_of_nil in H.
  - rewrite elem_of_app. intros [H|H].
    + exists x, k. split; [left | done].
    + destruct (IH _ H) as (x' & i & Hx' & Hb). exists x', i. split; [by right | done].
Qed.

(** When the callback pushes two elements per item, item [i] owns the
    slots [2i] and [2i+1]. *)
Lemma forEachPush_pairs {A B} (f : A → nat → list B) xs k i x :
  (∀ a j, length (f a j) = 2%nat) →
  xs !! i = Some x →
  forEachPush f xs k !! (2 * i)%nat = f x (k + i)%nat !! 0%nat
  ∧ forEachPush f xs k !! (2 * i + 1)%nat = f x (k + i)%nat !! 1%nat.
Proof.
  intros Hf. revert k i. induction xs as [|a xs IH]; intros k i Hi; [done|].
  cbn [forEachPush]. destruct i as [|i].
  - injection Hi as ->. rewrite Nat.add_0_r.
    pose proof (Hf x k) as Hlen.
    destruct (f x k) as [|b1 [|b2 [|b3 l]]]; cbn in Hlen; try lia. done.
  - cbn in Hi. destruct (IH (S k) i Hi) as [H1 H2].
    replace (k + S i)%nat with (S k + i)%nat by lia.
    pose proof (Hf a k) as Hlen.
    destruct (f a k) as [|b1 [|b2 [|b3 l]]]; cbn in Hlen; try lia.
    replace (2 * S i)%nat with (S (S (2 * i))) by lia.
    split; [exact H1 | exact H2].
Qed.

Section Layout.
Import NetworkTopology.

Lemma renderDeviceHierarchy_unfold dev children x y level W :
  renderDeviceHierarchy (mkDeviceNode dev children) x y level W
  = g (String.append "hierarchy-" (toString (Device.id dev)))
      (deviceNode dev x y ::
       match children with
       | Some cs => if (0 <? length cs)%nat
                    then childElements dev cs x y level W else []
       | None => []
       end).
Proof. reflexivity. Qed.

Lemma renderDeviceHierarchy_children dev cs x y level W :
  (0 < length cs)%nat →
  renderDeviceHierarchy (mkDeviceNode dev (Some cs)) x y level W
  = g (String.append "hierarchy-" (toString (Device.id dev)))
      (deviceNode dev x y :: childElements dev cs x y level W).
Proof.
  intros Hn. rewrite renderDeviceHierarchy_unfold.
  apply Nat.ltb_lt in Hn. by rewrite Hn.
Qed.
End Layout.

Section Placement.
Import NetworkTopology.

Lemma hierarchyOrigin_render c x y level W :
  hierarchyOrigin (renderDeviceHierarchy c x y level W) = Some (x, y).
Proof. destruct c as [dev children]. reflexivity. Qed.

Lemma ofNat_S i : ofNat (S i) == ofNat i + 1.
Proof.
  unfold ofNat. rewrite Nat2Z.inj_succ, <- Z.add_1_r, inject_Z_plus. reflexivity.
Qed.

(** The slots of the elements pushed for child [i]. *)
Lemma renderDeviceHierarchy_child dev cs x y level W i c :
  (0 < length cs)%nat → cs !! i = Some c →
  ∃ key els,
    renderDeviceHierarchy (mkDeviceNode dev (Some cs)) x y level W = g key els
    ∧ els !! 0%nat = Some (deviceNode dev x y)
    ∧ (∃ k, els !! (2 * i + 1)%nat
            = Some (path k
                      (connPath dev x y
                         (childX x W (W / ofNat (length cs)) i)
                         (y + verticalSpacing)) "#9CA3AF"))
    ∧ els !! (2 * i + 2)%nat
      = Some (renderDeviceHierarchy c
                (childX x W (W / ofNat (length cs)) i)
                (y + verticalSpacing) (S level)
                (W / ofNat (length cs) - 10)).
Proof.
  intros Hn Hi. rewrite (renderDeviceHierarchy_children _ _ _ _ _ _ Hn).
  eexists _, _. split; [reflexivity|]. split; [reflexivity|].
  unfold childElements.
  match goal with
  | |- context [forEachPush ?f cs 0%nat] =>
      destruct (forEachPush_pairs f cs 0%nat i c) as [H1 H2];
        [intros a j; reflexivity | exact Hi |]
  end.
  replace (2 * i + 1)%nat with (S (2 * i)) by lia.
  replace (2 * i + 2)%nat with (S (2 * i + 1)) by lia.
  split.
  - eexists. refine (eq_trans H1 _). reflexivity.
  - refine (eq_trans H2 _). reflexivity.
Qed.

(** C5. A node with [n > 0] children, drawn at [(x, y)] with available
    width [W], draws child [i] (in the given order) as a hierarchy whose
    node is at x-coordinate [x - W/2 + (W/n)*i + (W/n)/2 - 25] and
    y-coordinate [y + 70]; the slot width [W/n] is the same for every
    child whatever its subtree, so consecutive children are [W/n] apart;
    nothing depends on the nesting level. *)
Theorem children_placed_in_equal_slots
    (dev : Device.t) (cs : list DeviceNode) (x y : Q) (level : nat) (W : Q)
    (i : nat) (c : DeviceNode) :
  (0 < length cs)%nat →
  cs !! i = Some c →
  let n := ofNat (length cs) in
  let cx (j : nat) := x - (W / 2) + ((W / n) * ofNat j) + ((W / n) / 2) - 25 in
  ∃ key els drawn,
    renderDeviceHierarchy (mkDeviceNode dev (Some cs)) x y level W = g key els
    ∧ els !! (2 * i + 2)%nat = Some drawn
    ∧ drawn = renderDeviceHierarchy c (cx i) (y + 70) (S level) (W / n - 10)
    ∧ hierarchyOrigin drawn = Some (cx i, y + 70)
    ∧ cx (S i) - cx i == W / n.
Proof.
  intros Hn Hi n cx.
  destruct (renderDeviceHierarchy_child dev cs x y level W i c Hn Hi)
    as (key & els & Heq & _ & _ & Hchild).
  exists key, els, (renderDeviceHierarchy c (cx i) (y + 70) (S level) (W / n - 10)).
  split; [exact Heq|]. split; [exact Hchild|]. split; [reflexivity|].
  split; [apply hierarchyOrigin_render|].
  unfold cx. rewrite ofNat_S. unfold Qdiv. ring.
Qed.
End Placement.

(** ** Risk indicator *)

Lemma elem_of_concat_map {A B} (f : A → list B) (l : list A) (b : B) :
  b ∈ concat (map f l) ↔ ∃ a, a ∈ l ∧ b ∈ f a.
Proof.
  induction l as [|a l IH]; cbn.
  - split; [intros H; by apply elem_of_nil in H | intros (a & H & _); by apply elem_of_nil in H].
  - rewrite elem_of_app, IH. split.
    + intros [H | (a' & H1 & H2)]; [exists a; split; [left | done] |].
      exists a'. split; [by right | done].
    + intros (a' & H1 & H2). apply elem_of_cons in H1 as [-> | H1]; [by left |].
      right. by exists a'.
Qed.

Section RiskIndicator.
Import NetworkTopology.

Lemma deviceNode_indicator dev x y key els :
  deviceNode dev x y = g key els →
  (existsb isPulsing els = true ↔ atRisk (Device.status dev))
  ∧ pulseFills els = expectedIndicator (Device.status dev).
Proof.
  unfold deviceNode, riskIndicators, atRisk, expectedIndicator.
  intros [= _ <-].
  destruct (String.eqb_spec (Device.status dev) "critical") as [Hc|Hc];
    destruct (String.eqb_spec (Device.status dev) "down") as [Hd|Hd];
    destruct (String.eqb_spec (Device.status dev) "warning") as [Hw|Hw];
    cbn; repeat case_bool_decide; intuition congruence.
Qed.

Lemma childElements_shape dev cs x y level W s :
  s ∈ childElements dev cs x y level W →
  (∃ k d st, s = path k d st)
  ∨ (∃ c cx cy W', c ∈ cs ∧ s = renderDeviceHierarchy c cx cy (S level) W').
Proof.
  unfold childElements. intros H.
  apply elem_of_forEachPush in H as (c & i & Hc & Hs).
  apply elem_of_cons in Hs as [-> | Hs]; [left; eauto |].
  apply elem_of_cons in Hs as [-> | Hs]; [right; eauto 10 |].
  by apply elem_of_nil in Hs.
Qed.

Lemma renderDeviceHierarchy_is_group c x y level W :
  ∃ key els, renderDeviceHierarchy c x y level W = g key els.
Proof. destruct c. eauto. Qed.

Lemma riskIndicators_circles dev x y e :
  e ∈ riskIndicators dev x y → ∃ a, e = circle a.
Proof.
  unfold riskIndicators. rewrite elem_of_app.
  intros [H|H];
    [destruct (_ || _) | destruct (String.eqb _ _)];
    try (by apply elem_of_nil in H);
    apply list_elem_of_singleton in H; eauto.
Qed.

(** The elements of a node group: one clickable rectangle, then circles
    and a text. *)
Lemma deviceNode_elements dev x y key els s :
  deviceNode dev x y = g key els → s ∈ els →
  (∃ a, s = rect a ∧ rect_onClick a = Some dev)
  ∨ (∃ a, s = circle a) ∨ (∃ tx ty t, s = text tx ty t).
Proof.
  unfold deviceNode. intros [= _ <-]. cbn [app]. rewrite !elem_of_cons.
  intros [-> | [-> | [-> | H]]]; eauto 10.
  right; left. by eapply riskIndicators_circles.
Qed.

Lemma leaf_indicatorCorrect e :
  (∀ key els, e ≠ g key els) → indicatorCorrect e.
Proof. intros Hleaf key els a d Heq. by destruct (Hleaf key els). Qed.

Lemma deviceNode_indicatorCorrect dev x y e :
  e ∈ subelements (deviceNode dev x y) → indicatorCorrect e.
Proof.
  destruct (deviceNode dev x y) as [| | | |key els] eqn:Hnode; try discriminate.
  cbn [subelements]. rewrite elem_of_cons, elem_of_concat_map.
  intros [-> | (s & Hs & He)].
  - intros key' els' a d [= <- <-] Hr Hd.
    destruct (deviceNode_elements _ _ _ _ _ _ Hnode Hr)
      as [(a' & [= <-] & Ha) | [(a' & [=]) | (tx & ty & t & [=])]].
    assert (d = dev) as -> by congruence.
    by eapply deviceNode_indicator.
  - apply leaf_indicatorCorrect. intros k l ->.
    destruct (deviceNode_elements _ _ _ _ _ _ Hnode Hs)
      as [(a' & -> & _) | [(a' & ->) | (tx & ty & t & ->)]];
      cbn in He; apply list_elem_of_singleton in He; discriminate.
Qed.

Lemma subelements_g key els :
  subelements (g key els) = g key els :: concat (map subelements els).
Proof. reflexivity. Qed.

(** A hierarchy group holds the node group, connector paths and the
    children's hierarchy groups: no rectangle of its own. *)
Lemma hierarchy_group_indicatorCorrect key dev x y rest :
  (∀ s, s ∈ rest → ∀ a, s ≠ rect a) →
  indicatorCorrect (g key (deviceNode dev x y :: rest)).
Proof.
  intros Hrest key' els a d [= _ <-] Hr _.
  apply elem_of_cons in Hr as [Hr | Hr]; [discriminate Hr |].
  by destruct (Hrest _ Hr a).
Qed.

Lemma renderDeviceHierarchy_indicator tree :
  ∀ x y level W e,
    e ∈ subelements (renderDeviceHierarchy tree x y level W) →
    indicatorCorrect e.
Proof.
  induction tree as [dev | dev cs IH] using DeviceNode_tree_ind;
    intros x y level W e;
    rewrite renderDeviceHierarchy_unfold, subelements_g,
      elem_of_cons, elem_of_concat_map.
  - intros [-> | (s & Hs & He)].
    + apply hierarchy_group_indicatorCorrect.
      intros s Hs. by apply elem_of_nil in Hs.
    + apply elem_of_cons in Hs as [-> | Hs];
        [by eapply deviceNode_indicatorCorrect | by apply elem_of_nil in Hs].
  - set (rest := if (0 <? length cs)%nat then _ else _).
    assert (∀ s, s ∈ rest →
              (∃ k d st, s = path k d st)
              ∨ (∃ c cx cy W', c ∈ cs
                   ∧ s = renderDeviceHierarchy c cx cy (S level) W')) as Hrest.
    { intros s Hs. subst rest. destruct (0 <? length cs)%nat.
      - by eapply childElements_shape.
      - by apply elem_of_nil in Hs. }
    intros [-> | (s & Hs & He)].
    + apply hierarchy_group_indicatorCorrect. intros s Hs a ->.
      destruct (Hrest _ Hs) as [(k & p & st & [=]) | (c & cx & cy & W' & _ & Hc)].
      destruct (renderDeviceHierarchy_is_group c cx cy (S level) W')
        as (k & l & Hg). congruence.
    + apply elem_of_cons in Hs as [-> | Hs];
        [by eapply deviceNode_indicatorCorrect |].
      destruct (Hrest _ Hs) as [(k & p & st & ->) | (c & cx & cy & W' & Hc & ->)].
      * cbn in He. apply list_elem_of_singleton in He as ->.
        by apply leaf_indicatorCorrect.
      * rewrite Forall_forall in IH. by eapply IH.
Qed.

Lemma siteArea_indicator site siteIndex e :
  e ∈ subelements (siteArea site siteIndex) → indicatorCorrect e.
Proof.
  unfold siteArea. rewrite subelements_g, elem_of_cons, elem_of_concat_map.
  set (hs := match TopologyNode.devices site with Some _ => _ | None => _ end).
  assert (∀ s, s ∈ hs → ∃ c cx cy W, s = renderDeviceHierarchy c cx cy 0 W)
    as Hhs.
  { intros s Hs. subst hs. destruct (TopologyNode.devices site) as [devs|].
    - apply elem_of_forEachPush in Hs as (c & i & _ & Hs).
      apply list_elem_of_singleton in Hs. eauto.
    - by apply elem_of_nil in Hs. }
  cbn [app]. intros [-> | (s & Hs & He)].
  - intros key els a d [= _ <-] Hr Hd.
    rewrite !elem_of_cons in Hr. destruct Hr as [[= Ha] | [[=] | Hr]].
    + rewrite Ha in Hd. discriminate Hd.
    + destruct (Hhs _ Hr) as (c & cx & cy & W & Hc).
      destruct (renderDeviceHierarchy_is_group c cx cy 0 W) as (k & l & Hg).
      congruence.
  - rewrite !elem_of_cons in Hs. destruct Hs as [-> | [-> | Hs]].
    + cbn in He. apply list_elem_of_singleton in He as ->.
      by apply leaf_indicatorCorrect.
    + cbn in He. apply list_elem_of_singleton in He as ->.
      by apply leaf_indicatorCorrect.
    + destruct (Hhs _ Hs) as (c & cx & cy & W & ->).
      by eapply renderDeviceHierarchy_indicator.
Qed.

(** C4 as stated fails on the static tier: with sites, devices and
    topology loaded and no filter set, a firewall whose status is
    "critical" is drawn above the site areas without any pulsing circle. *)
Lemma static_firewall_lacks_indicator :
  ¬ riskIndicatorClaim
      (diagram (Some [headquarters]) (Some [firewall1])
         (Some [TopologyNode.mk 1 "HQ" "site" None]) "all" "all").
Proof.
  intros Hclaim.
  assert (indicatorCorrect (firewallNode firewall1)) as Hfw.
  { apply (Hclaim (firewallNode firewall1)); [left | left]. }
  edestruct Hfw as [[_ Hrisk] _]; [reflexivity | left | reflexivity |].
  discriminate Hrisk. left. reflexivity.
Qed.

Example static_firewall_drawing :
  diagram (Some [headquarters]) (Some [firewall1])
    (Some [TopologyNode.mk 1 "HQ" "site" None]) "all" "all"
  = [ firewallNode firewall1;
      g "site-1" [ rect (mkRect 150 260 300 300 5 "#F3F4F6" "#D1D5DB" None);
                   text (150 + 300 / 2) (260 + 20) "HQ" ] ].
Proof. reflexivity. Qed.

(** C4 (amended). Every device node drawn by [renderDeviceHierarchy], at
    any depth of a hierarchy and hence of a site area, carries the
    pulsing risk indicator if and only if the device's status is
    "critical", "down" or "warning": red for critical and down, orange
    for warning, none for any other status.  The static firewall, router
    and switch icons never carry one. *)
Theorem risk_indicator_on_hierarchy_nodes :
  (∀ tree x y level W,
      riskIndicatorClaim [renderDeviceHierarchy tree x y level W])
  ∧ (∀ site siteIndex, riskIndicatorClaim [siteArea site siteIndex])
  ∧ (∀ sites d e key els,
        e ∈ [firewallNode d; routerNode d; switchNode sites d] →
        e = g key els → existsb isPulsing els = false).
Proof.
  split; [|split].
  - intros tree x y level W top e Htop He.
    apply list_elem_of_singleton in Htop as ->.
    by eapply renderDeviceHierarchy_indicator.
  - intros site siteIndex top e Htop He.
    apply list_elem_of_singleton in Htop as ->.
    by eapply siteArea_indicator.
  - intros sites d e key els He Heq. rewrite !elem_of_cons in He.
    destruct He as [-> | [-> | [-> | He]]];
      [| | | by apply elem_of_nil in He];
      injection Heq as _ <-; reflexivity.
Qed.

Example server7_red x y :
  riskIndicators server7 x y
  = [circle (mkCircle (x + 50 / 2) (y - 10) 5 "#FF0000"
                      (Some "animate-pulse") (Some 0.6))].
Proof. reflexivity. Qed.

Example server8_orange x y :
  riskIndicators server8 x y
  = [circle (mkCircle (x + 50 / 2) (y - 10) 5 "#FF832B"
                      (Some "animate-pulse") (Some 0.6))].
Proof. reflexivity. Qed.

Example server9_none x y : riskIndicators server9 x y = [].
Proof. reflexivity. Qed.
End RiskIndicator.

(** ** Connectors *)

Section Connector.
Import NetworkTopology.

(** The placement theorem at the second of two servers below a switch. *)
Lemma children_placed_in_equal_slots_witness :
  ∃ key els drawn,
    renderDeviceHierarchy (mkDeviceNode switch5 (Some rack)) 170 320 0 260
    = g key els
    ∧ els !! 4%nat = Some drawn
    ∧ hierarchyOrigin drawn
      = Some (170 - (260 / 2) + ((260 / ofNat 2) * ofNat 1)
              + ((260 / ofNat 2) / 2) - 25, 320 + 70).
Proof.
  destruct (children_placed_in_equal_slots switch5 rack 170 320 0 260 1
              (mkDeviceNode server8 (Some [])))
    as (key & els & drawn & H1 & H2 & _ & H3 & _).
  - cbn. lia.
  - reflexivity.
  - exists key, els, drawn. split; [exact H1 | split; [exact H2 | exact H3]].
Defined.

(** Every connector starts at the parent's bottom-centre and ends 25 to
    the right of the child's left edge, at the child's top. *)
Lemma connector_endpoints dev cs x y level W i c :
  (0 < length cs)%nat → cs !! i = Some c →
  ∃ key els k d child cx cy,
    renderDeviceHierarchy (mkDeviceNode dev (Some cs)) x y level W = g key els
    ∧ els !! (2 * i + 1)%nat = Some (path k d "#9CA3AF")
    ∧ els !! (2 * i + 2)%nat = Some child
    ∧ hierarchyOrigin child = Some (cx, cy)
    ∧ pathStart d = Some (x + nodeWidth dev / 2, y + nodeHeight)
    ∧ pathEnd d = Some (cx + 25, cy).
Proof.
  intros Hn Hi.
  destruct (renderDeviceHierarchy_child dev cs x y level W i c Hn Hi)
    as (key & els & Heq & _ & (k & Hpath) & Hchild).
  eexists key, els, k, _, _, _, _.
  split; [exact Heq|]. split; [exact Hpath|]. split; [exact Hchild|].
  split; [apply hierarchyOrigin_render|]. split; reflexivity.
Qed.

(** The end point is the child's top-centre exactly for a server child. *)
Lemma connector_end_is_top_centre_iff_server (c : Device.t) (cx : Q) :
  cx + 25 == cx + nodeWidth c / 2 ↔ Device.type c = "server".
Proof.
  unfold nodeWidth.
  destruct (String.eqb_spec (Device.type c) "server") as [Hs|Hs]; split;
    try done.
  - intros _. apply Qplus_inj_l. vm_compute. reflexivity.
  - intros Heq. exfalso. apply Qplus_inj_l in Heq.
    vm_compute in Heq. discriminate Heq.
Qed.

(** C6 at a switch drawn below a switch: the connector ends at
    [childX + 25] although the child, 60 wide, has its top-centre (and
    its interface port) at [childX + 30]; the start point is the parent's
    bottom-centre. *)
Theorem connector_misses_top_centre_of_switch_child :
  ∃ key els k d child cx cy ex ey,
    renderDeviceHierarchy
      (mkDeviceNode switch5 (Some [mkDeviceNode switch6 None])) 170 320 0 260
    = g key els
    ∧ els !! 1%nat = Some (path k d "#9CA3AF")
    ∧ els !! 2%nat = Some child
    ∧ hierarchyOrigin child = Some (cx, cy)
    ∧ pathStart d = Some (170 + nodeWidth switch5 / 2, 320 + nodeHeight)
    ∧ pathEnd d = Some (ex, ey)
    ∧ ey = cy
    ∧ ex == cx + 25
    ∧ cx + nodeWidth switch6 / 2 == cx + 30
    ∧ ¬ ex == cx + nodeWidth switch6 / 2.
Proof.
  do 9 eexists.
  split; [reflexivity|]. split; [reflexivity|]. split; [reflexivity|].
  split; [reflexivity|]. split; [reflexivity|]. split; [reflexivity|].
  split; [reflexivity|]. split; [reflexivity|]. split; [reflexivity|].
  intros H. vm_compute in H. discriminate H.
Qed.
End Connector.

(** ** Change requests: controls and transitions *)

Section Transitions.
Import ChangeManagement.

Lemma approveSection_spec st r c :
  c ∈ approveSection st r ↔
    c = mkControl "Approve Request" (ApproveRequest (ChangeRequest.id r))
          (approvePending st)
    ∧ ChangeRequest.status r = "pending"
    ∧ ∃ u, user st = Some u
           ∧ (User.role u = "admin" ∨ User.role u = "approver").
Proof.
  unfold approveSection, roleIs.
  destruct (String.eqb_spec (ChangeRequest.status r) "pending") as [Hs|Hs];
    cbn [andb].
  - destruct (user st) as [u|]; cbn [orb].
    + destruct (String.eqb_spec (User.role u) "admin") as [Ha|Ha];
        destruct (String.eqb_spec (User.role u) "approver") as [Hp|Hp];
        cbn [orb]; rewrite ?list_elem_of_singleton, ?elem_of_nil;
        split; try (intros ->; eauto 10); try (intros (-> & _ & _); done);
        try done; intros (_ & _ & u' & [= <-] & [?|?]); done.
    + rewrite elem_of_nil. split; [done | intros (_ & _ & u & [=] & _)].
  - rewrite elem_of_nil. split; [done | intros (_ & ? & _); done].
Qed.

Lemma implementSection_spec st r c :
  c ∈ implementSection st r ↔
    c = mkControl "Mark as Implemented"
          (ImplementRequest (ChangeRequest.id r)) (implementPending st)
    ∧ ChangeRequest.status r = "approved"
    ∧ ∃ u, user st = Some u
           ∧ (User.role u = "admin" ∨ User.role u = "implementer").
Proof.
  unfold implementSection, roleIs.
  destruct (String.eqb_spec (ChangeRequest.status r) "approved") as [Hs|Hs];
    cbn [andb].
  - destruct (user st) as [u|]; cbn [orb].
    + destruct (String.eqb_spec (User.role u) "admin") as [Ha|Ha];
        destruct (String.eqb_spec (User.role u) "implementer") as [Hp|Hp];
        cbn [orb]; rewrite ?list_elem_of_singleton, ?elem_of_nil;
        split; try (intros ->; eauto 10); try (intros (-> & _ & _); done);
        try done; intros (_ & _ & u' & [= <-] & [?|?]); done.
    + rewrite elem_of_nil. split; [done | intros (_ & _ & u & [=] & _)].
  - rewrite elem_of_nil. split; [done | intros (_ & ? & _); done].
Qed.

(** Where a rendered control comes from. *)
Lemma elem_of_render st c :
  c ∈ render st →
  c = mkControl "New Request" OpenNewRequest false
  ∨ c = mkControl "Submit Change Request" Submit (createPending st)
  ∨ (∃ l tab, c = mkControl l (SelectTab tab) false)
  ∨ (∃ request, c = mkControl "View" (ViewDetails request) false)
  ∨ (∃ r, selectedRequest st = Some r
          ∧ (c ∈ approveSection st r ∨ c ∈ implementSection st r)).
Proof.
  unfold render. destruct (isLoading st); [intros H; by apply elem_of_nil in H|].
  rewrite !elem_of_app, !elem_of_cons.
  intros [[-> | [-> | H]] | [H | [H | H]]]; eauto.
  - by apply elem_of_nil in H.
  - cbn in H. rewrite !elem_of_cons in H.
    destruct H as [-> | [-> | [-> | [-> | [-> | H]]]]]; eauto 10.
    by apply elem_of_nil in H.
  - apply list_elem_of_In, in_map_iff in H as (request & <- & _). eauto 10.
  - unfold detailsDialog in H. destruct (selectedRequest st) as [r|].
    + apply elem_of_app in H. eauto 10.
    + by apply elem_of_nil in H.
Qed.

Lemma approve_control_rendered st c id :
  c ∈ render st → onClick c = ApproveRequest id →
  ∃ r u, selectedRequest st = Some r ∧ id = ChangeRequest.id r
         ∧ ChangeRequest.status r = "pending"
         ∧ user st = Some u
         ∧ (User.role u = "admin" ∨ User.role u = "approver").
Proof.
  intros Hc Hclick.
  destruct (elem_of_render _ _ Hc)
    as [-> | [-> | [(l & tab & ->) | [(rq & ->) | (r & Hsel & [H | H])]]]];
    try discriminate Hclick.
  - apply approveSection_spec in H as (-> & Hs & u & Hu & Hrole).
    injection Hclick as <-. eauto 10.
  - apply implementSection_spec in H as (-> & _). discriminate Hclick.
Qed.

Lemma implement_control_rendered st c id :
  c ∈ render st → onClick c = ImplementRequest id →
  ∃ r u, selectedRequest st = Some r ∧ id = ChangeRequest.id r
         ∧ ChangeRequest.status r = "approved"
         ∧ user st = Some u
         ∧ (User.role u = "admin" ∨ User.role u = "implementer").
Proof.
  intros Hc Hclick.
  destruct (elem_of_render _ _ Hc)
    as [-> | [-> | [(l & tab & ->) | [(rq & ->) | (r & Hsel & [H | H])]]]];
    try discriminate Hclick.
  - apply approveSection_spec in H as (-> & _). discriminate Hclick.
  - apply implementSection_spec in H as (-> & Hs & u & Hu & Hrole).
    injection Hclick as <-. eauto 10.
Qed.
End Transitions.

Section Issued.
Import ChangeManagement.

Lemma requests_perform a st :
  requests (perform a st) = requests st ++ sentBy a st.
Proof.
  destruct a; cbn; rewrite ?app_nil_r; try reflexivity.
  unfold handleSubmit. destruct (requestFormSchema (formValues st));
    cbn; by rewrite ?app_nil_r.
Qed.

Lemma requests_invalidateQueries key st :
  requests (invalidateQueries key st)
  = requests st ++ match queries st !! key with
                   | Some _ => [mkApiRequest "GET" key NoBody]
                   | None => []
                   end.
Proof.
  unfold invalidateQueries. destruct (queries st !! key); cbn;
    by rewrite ?app_nil_r.
Qed.

Lemma requests_onSuccess k response st :
  requests (onSuccess k response (setPending k false st))
  = requests st ++ match queries st !! changeRequestsKey with
                   | Some _ => [mkApiRequest "GET" changeRequestsKey NoBody]
                   | None => []
                   end.
Proof.
  destruct k; cbn -[invalidateQueries];
    rewrite requests_invalidateQueries; reflexivity.
Qed.

Lemma requests_onError k message st :
  requests (onError k message (setPending k false st)) = requests st.
Proof. by destruct k. Qed.

(** What [step] sends: a click sends what the clicked control's action
    sends; a successful mutation refetches the list; nothing else sends. *)
Lemma issued_cases st ev rq :
  rq ∈ issued st ev →
  (∃ a, runsAction st ev a ∧ rq ∈ sentBy a st)
  ∨ (∃ k response, ev = Succeeded k response
                   ∧ rq = mkApiRequest "GET" changeRequestsKey NoBody).
Proof.
  unfold issued. destruct ev as [i|v|b|b|k response|k message|key d];
    cbn [step].
  - destruct (render st !! i) as [c|] eqn:Hi.
    + destruct (disabled c) eqn:Hdis.
      * rewrite drop_all. intros H. by apply elem_of_nil in H.
      * rewrite requests_perform, drop_app_length. intros H. left.
        exists (onClick c). split; [|done]. by exists i, c.
    + rewrite drop_all. intros H. by apply elem_of_nil in H.
  - cbn. rewrite drop_all. intros H. by apply elem_of_nil in H.
  - cbn. rewrite drop_all. intros H. by apply elem_of_nil in H.
  - cbn. rewrite drop_all. intros H. by apply elem_of_nil in H.
  - rewrite requests_onSuccess, drop_app_length.
    destruct (queries st !! changeRequestsKey);
      [|intros H; by apply elem_of_nil in H].
    intros H. apply list_elem_of_singleton in H. right. eauto.
  - rewrite requests_onError, drop_all. intros H. by apply elem_of_nil in H.
  - cbn. rewrite drop_all. intros H. by apply elem_of_nil in H.
Qed.

Lemma requests_step st ev :
  requests (step st ev) = requests st ++ issued st ev.
Proof.
  unfold issued.
  assert (∃ new, requests (step st ev) = requests st ++ new) as [new ->].
  { destruct ev as [i|v|b|b|k response|k message|key d]; cbn [step].
    - destruct (render st !! i) as [c|]; [|exists []; by rewrite app_nil_r].
      destruct (disabled c); [exists []; by rewrite app_nil_r|].
      eexists. apply requests_perform.
    - exists []. by rewrite app_nil_r.
    - exists []. by rewrite app_nil_r.
    - exists []. by rewrite app_nil_r.
    - eexists. apply requests_onSuccess.
    - exists []. rewrite app_nil_r. apply requests_onError.
    - exists []. by rewrite app_nil_r. }
  by rewrite drop_app_length.
Qed.

(** C1. Every transition request (a PUT) the page sends is either the
    approval of the selected request, whose status is then "pending", or
    the implementation of the selected request, whose status is then
    "approved"; so none is sent for a selected request whose status is
    "implemented" or "rejected". *)
Theorem transitions_follow_state_machine
    (st : State) (ev : Event) (rq : ApiRequest) :
  rq ∈ issued st ev →
  method rq = "PUT" →
  ∃ r, selectedRequest st = Some r
       ∧ ((runsAction st ev (ApproveRequest (ChangeRequest.id r))
           ∧ rq = putApprove (ChangeRequest.id r)
           ∧ ChangeRequest.status r = "pending")
          ∨ (runsAction st ev (ImplementRequest (ChangeRequest.id r))
             ∧ rq = putImplement (ChangeRequest.id r)
             ∧ ChangeRequest.status r = "approved"))
       ∧ ChangeRequest.status r ≠ "implemented"
       ∧ ChangeRequest.status r ≠ "rejected".
Proof.
  intros Hrq Hput.
  destruct (issued_cases _ _ _ Hrq) as [(a & Hrun & Hsent) | (k & rsp & _ & ->)];
    [|discriminate Hput].
  pose proof Hrun as (i & c & -> & Hi & Hen & Hclick).
  assert (c ∈ render st) as Hc by (by eapply list_elem_of_lookup_2).
  destruct a as [| |tab|request|id|id]; cbn in Hsent;
    try (by apply elem_of_nil in Hsent).
  - destruct (requestFormSchema (formValues st));
      [by apply elem_of_nil in Hsent|].
    apply list_elem_of_singleton in Hsent as ->. discriminate Hput.
  - apply list_elem_of_singleton in Hsent as ->.
    destruct (approve_control_rendered _ _ _ Hc Hclick)
      as (r & u & Hsel & -> & Hs & _).
    exists r. split; [done|]. rewrite Hs. split; [left; done | done].
  - apply list_elem_of_singleton in Hsent as ->.
    destruct (implement_control_rendered _ _ _ Hc Hclick)
      as (r & u & Hsel & -> & Hs & _).
    exists r. split; [done|]. rewrite Hs. split; [right; done | done].
Qed.

(** Without a signed-in user the page shows neither control. *)
Lemma no_transition_controls_without_user st c id :
  user st = None → c ∈ render st →
  onClick c ≠ ApproveRequest id ∧ onClick c ≠ ImplementRequest id.
Proof.
  intros Hu Hc. split; intros Hclick.
  - destruct (approve_control_rendered _ _ _ Hc Hclick)
      as (r & u & _ & _ & _ & Hu' & _). congruence.
  - destruct (implement_control_rendered _ _ _ Hc Hclick)
      as (r & u & _ & _ & _ & Hu' & _). congruence.
Qed.

(** A viewer, or any role other than the three named ones, is shown
    neither control. *)
Lemma no_transition_controls_for_other_roles st u c id :
  user st = Some u →
  User.role u ≠ "admin" → User.role u ≠ "approver" →
  User.role u ≠ "implementer" →
  c ∈ render st →
  onClick c ≠ ApproveRequest id ∧ onClick c ≠ ImplementRequest id.
Proof.
  intros Hu Ha Hp Hi Hc. split; intros Hclick.
  - destruct (approve_control_rendered _ _ _ Hc Hclick)
      as (r & u' & _ & _ & _ & Hu' & Hrole).
    assert (u' = u) as -> by congruence. tauto.
  - destruct (implement_control_rendered _ _ _ Hc Hclick)
      as (r & u' & _ & _ & _ & Hu' & Hrole).
    assert (u' = u) as -> by congruence. tauto.
Qed.

(** C2. A rendered approve control implies a signed-in user whose role
    is "admin" or "approver"; a rendered implement control implies a
    signed-in user whose role is "admin" or "implementer".  With any
    other role, or without a user, the control is not in the output. *)
Theorem controls_gated_by_role (st : State) (c : Control) :
  c ∈ render st →
  (∀ id, onClick c = ApproveRequest id →
         ∃ u, user st = Some u
              ∧ (User.role u = "admin" ∨ User.role u = "approver"))
  ∧ (∀ id, onClick c = ImplementRequest id →
           ∃ u, user st = Some u
                ∧ (User.role u = "admin" ∨ User.role u = "implementer")).
Proof.
  intros Hc. split; intros id Hclick.
  - destruct (approve_control_rendered _ _ _ Hc Hclick)
      as (r & u & _ & _ & _ & Hu & Hrole). eauto.
  - destruct (implement_control_rendered _ _ _ Hc Hclick)
      as (r & u & _ & _ & _ & Hu & Hrole). eauto.
Qed.
End Issued.

(** ** Mutation callbacks and the query cache *)

Section Callbacks.
Import ChangeManagement.

Lemma queries_invalidateQueries key st :
  queries (invalidateQueries key st) = alter invalidated key (queries st).
Proof. unfold invalidateQueries. by destruct (queries st !! key). Qed.

Lemma queries_onSuccess k response st :
  queries (onSuccess k response (setPending k false st))
  = alter invalidated changeRequestsKey (queries st).
Proof.
  destruct k; cbn -[invalidateQueries];
    rewrite queries_invalidateQueries; reflexivity.
Qed.

Lemma queries_perform a st : queries (perform a st) = queries st.
Proof.
  destruct a; try reflexivity.
  cbn. unfold handleSubmit. by destruct (requestFormSchema (formValues st)).
Qed.

(** Invalidation keeps the data of every cached entry. *)
Lemma data_alter_invalidated key (m : gmap string Query) key' :
  data <$> alter invalidated key m !! key' = data <$> m !! key'.
Proof.
  rewrite lookup_alter. case_decide as Hk; [subst key'|done].
  by destruct (m !! key).
Qed.

(** Only the arrival of fetched data changes cached data. *)
Lemma step_keeps_cached_data st ev key :
  isFetched ev = false →
  data <$> queries (step st ev) !! key = data <$> queries st !! key.
Proof.
  destruct ev as [i|v|b|b|k response|k message|key' d]; cbn [step isFetched];
    try done.
  - intros _. destruct (render st !! i) as [c|]; [|done].
    destruct (disabled c); [done|]. by rewrite queries_perform.
  - intros _. by rewrite queries_onSuccess, data_alter_invalidated.
  - intros _. by destruct k.
Qed.

(** C7. When a create, approve or implement mutation succeeds, the
    callback marks the cached '/api/change-requests' query invalidated
    and refetches it; the data of every cached entry stays as it was,
    and the server's response plays no part in the new state.  More
    generally no event but the arrival of fetched data changes cached
    data. *)
Theorem success_invalidates_and_writes_nothing
    (k : MutationKind) (response : ChangeRequest.t) (st : State) :
  queries (step st (Succeeded k response))
  = alter invalidated changeRequestsKey (queries st)
  ∧ (∀ key, data <$> queries (step st (Succeeded k response)) !! key
            = data <$> queries st !! key)
  ∧ (∀ q, queries st !! changeRequestsKey = Some q →
          queries (step st (Succeeded k response)) !! changeRequestsKey
          = Some (mkQuery (data q) true)
          ∧ issued st (Succeeded k response)
            = [mkApiRequest "GET" changeRequestsKey NoBody])
  ∧ (∀ response', step st (Succeeded k response')
                  = step st (Succeeded k response))
  ∧ (∀ ev key, isFetched ev = false →
               data <$> queries (step st ev) !! key
               = data <$> queries st !! key).
Proof.
  cbn [step]. split; [apply queries_onSuccess|].
  split; [intros key; by rewrite queries_onSuccess, data_alter_invalidated|].
  split; [|split; [done | intros ev key; apply step_keeps_cached_data]].
  intros q Hq. split.
  - rewrite queries_onSuccess, lookup_alter. case_decide; [|done].
    by rewrite Hq.
  - unfold issued. cbn [step].
    by rewrite requests_onSuccess, drop_app_length, Hq.
Qed.

(** C8. When a create, approve or implement mutation fails, the callback
    makes one [toast] call, whose description is the error's message;
    the cache, the request log (no retry, no refetch), the selection,
    both dialogs, the tab and the form are as before. *)
Theorem failure_only_notifies
    (k : MutationKind) (message : string) (st : State) :
  onError k message st
  = toast (mkToast (errorTitle k) message Destructive) st
  ∧ toasts (step st (Failed k message))
    = toasts st ++ [mkToast (errorTitle k) message Destructive]
  ∧ queries (step st (Failed k message)) = queries st
  ∧ requests (step st (Failed k message)) = requests st
  ∧ issued st (Failed k message) = []
  ∧ selectedRequest (step st (Failed k message)) = selectedRequest st
  ∧ dialogOpen (step st (Failed k message)) = dialogOpen st
  ∧ detailsOpen (step st (Failed k message)) = detailsOpen st
  ∧ activeTab (step st (Failed k message)) = activeTab st
  ∧ formValues (step st (Failed k message)) = formValues st
  ∧ formErrors (step st (Failed k message)) = formErrors st.
Proof.
  unfold issued. destruct k; cbn; rewrite drop_all; repeat split.
Qed.
End Callbacks.

(** ** Form validation *)

Section Validation.
Import ChangeManagement.

Lemma string_min1_nil path message s :
  string_min1 path message s = [] ↔ s ≠ "".
Proof.
  unfold string_min1. destruct s; cbn; split; try done.
Qed.

Lemma string_min1_path path message s i :
  i ∈ string_min1 path message s → issue_path i = path.
Proof.
  unfold string_min1. destruct (_ <? _)%nat; intros H.
  - by apply list_elem_of_singleton in H as ->.
  - by apply elem_of_nil in H.
Qed.

Lemma requestFormSchema_issues v issues i :
  requestFormSchema v = inl issues → i ∈ issues →
  issue_path i = title ∨ issue_path i = description.
Proof.
  unfold requestFormSchema.
  destruct (_ ++ _) as [|i0 l] eqn:Heq; [discriminate|].
  intros [= <-]. rewrite <- Heq, elem_of_app.
  intros [H|H]; [left | right]; by eapply string_min1_path.
Qed.

Lemma requestFormSchema_ok v :
  FormValues.title v ≠ "" → FormValues.description v ≠ "" →
  ∃ d, requestFormSchema v = inr d
       ∧ RequestData.sourceIp d = FormValues.sourceIp v
       ∧ RequestData.type d = FormValues.type v.
Proof.
  intros Ht Hd. unfold requestFormSchema.
  rewrite (proj2 (string_min1_nil _ _ _) Ht), (proj2 (string_min1_nil _ _ _) Hd).
  cbn. eauto.
Qed.

Lemma requestFormSchema_inr v d :
  requestFormSchema v = inr d →
  FormValues.title v ≠ "" ∧ FormValues.description v ≠ "".
Proof.
  unfold requestFormSchema.
  destruct (_ ++ _) as [|i0 l] eqn:Heq; [|discriminate].
  intros _. apply app_eq_nil in Heq as [H1 H2].
  split; by eapply string_min1_nil.
Qed.

(** C9. For a form of type "firewall" whose sourceIp is left empty:
    validation raises issues on title and description only; it succeeds
    exactly when both are non-empty; and then submitting sends one POST
    to /api/change-requests whose body has sourceIp equal to the empty
    string. *)
Theorem firewall_without_sourceIp_submits
    (st : State) (v : FormValues.t) (errs : list Issue) :
  FormValues.type v = ChangeType.firewall →
  FormValues.sourceIp v = Some "" →
  (∀ issues i, requestFormSchema v = inl issues → i ∈ issues →
               issue_path i = title ∨ issue_path i = description)
  ∧ ((∃ d, requestFormSchema v = inr d)
     ↔ FormValues.title v ≠ "" ∧ FormValues.description v ≠ "")
  ∧ (∀ d, requestFormSchema v = inr d →
          RequestData.type d = ChangeType.firewall
          ∧ RequestData.sourceIp d = Some ""
          ∧ requests (handleSubmit (setForm v errs st))
            = requests st
              ++ [mkApiRequest "POST" "/api/change-requests" (CreateBody d)]).
Proof.
  intros Hty Hip. split; [|split].
  - intros issues i. apply requestFormSchema_issues.
  - split.
    + intros [d Hd]. by eapply requestFormSchema_inr.
    + intros [Ht Hd].
      destruct (requestFormSchema_ok v Ht Hd) as (d & Hok & _). eauto.
  - intros d Hd.
    destruct (requestFormSchema_inr _ _ Hd) as [Ht Hde].
    destruct (requestFormSchema_ok v Ht Hde) as (d' & Hok & Hsrc & Htyd).
    assert (d' = d) as -> by congruence.
    split; [congruence|]. split; [congruence|].
    unfold handleSubmit. cbn [formValues setForm]. by rewrite Hd.
Qed.

Example default_form_fails_on_description :
  requestFormSchema defaultValues
  = inl [mkIssue description "Description is required"].
Proof. reflexivity. Qed.
End Validation.

(** ** Worked instances *)

Section Instances.
Import ChangeManagement.

Example approverViewsPending_controls :
  map label (render approverViewsPending)
  = ["New Request"; "Submit Change Request"; "All Requests"; "Pending";
     "Approved"; "Implemented"; "Rejected"; "View"; "Approve Request"].
Proof. vm_compute. reflexivity. Qed.

Example implementer_sees_no_approve :
  map label (render (viewing (Some bob) [cr1 "pending"] 7))
  = ["New Request"; "Submit Change Request"; "All Requests"; "Pending";
     "Approved"; "Implemented"; "Rejected"; "View"].
Proof. vm_compute. reflexivity. Qed.

Example nothing_offered_once_implemented :
  map label (render (viewing (Some (User.mk 0 "root" "admin"))
                       [cr1 "implemented"] 7))
  = ["New Request"; "Submit Change Request"; "All Requests"; "Pending";
     "Approved"; "Implemented"; "Rejected"; "View"].
Proof. vm_compute. reflexivity. Qed.

(** The transition theorem at the approver's click on "Approve Request". *)
Lemma transitions_follow_state_machine_witness :
  ∃ r, selectedRequest approverViewsPending = Some r
       ∧ ((runsAction approverViewsPending (Click 8)
             (ApproveRequest (ChangeRequest.id r))
           ∧ putApprove 1 = putApprove (ChangeRequest.id r)
           ∧ ChangeRequest.status r = "pending")
          ∨ (runsAction approverViewsPending (Click 8)
               (ImplementRequest (ChangeRequest.id r))
             ∧ putApprove 1 = putImplement (ChangeRequest.id r)
             ∧ ChangeRequest.status r = "approved"))
       ∧ ChangeRequest.status r ≠ "implemented"
       ∧ ChangeRequest.status r ≠ "rejected".
Proof.
  apply (transitions_follow_state_machine approverViewsPending (Click 8)
           (putApprove 1)).
  - vm_compute. left.
  - reflexivity.
Defined.

(** The role gate at the approve control shown to the approver. *)
Lemma controls_gated_by_role_witness :
  (∀ id, ApproveRequest 1 = ApproveRequest id →
         ∃ u, user approverViewsPending = Some u
              ∧ (User.role u = "admin" ∨ User.role u = "approver"))
  ∧ (∀ id, ApproveRequest 1 = ImplementRequest id →
           ∃ u, user approverViewsPending = Some u
                ∧ (User.role u = "admin" ∨ User.role u = "implementer")).
Proof.
  apply (controls_gated_by_role approverViewsPending
           (mkControl "Approve Request" (ApproveRequest 1) false)).
  apply list_elem_of_In. vm_compute. do 8 right. left. reflexivity.
Defined.

(** The validation theorem at a filled-in firewall form with no source IP. *)
Lemma firewall_without_sourceIp_submits_witness :
  (∀ issues i, requestFormSchema httpsRule = inl issues → i ∈ issues →
               issue_path i = title ∨ issue_path i = description)
  ∧ ((∃ d, requestFormSchema httpsRule = inr d)
     ↔ FormValues.title httpsRule ≠ "" ∧ FormValues.description httpsRule ≠ "")
  ∧ (∀ d, requestFormSchema httpsRule = inr d →
          RequestData.type d = ChangeType.firewall
          ∧ RequestData.sourceIp d = Some ""
          ∧ requests (handleSubmit (setForm httpsRule [] (initialState (Some bob))))
            = requests (initialState (Some bob))
              ++ [mkApiRequest "POST" "/api/change-requests" (CreateBody d)]).
Proof.
  apply (firewall_without_sourceIp_submits (initialState (Some bob)) httpsRule []);
    reflexivity.
Defined.

Example httpsRule_is_posted :
  ∃ d, issued (run (initialState (Some bob))
                 [Fetched changeRequestsKey (ChangeRequests []);
                  EditForm httpsRule])
         (Click 1)
       = [mkApiRequest "POST" "/api/change-requests" (CreateBody d)]
       ∧ RequestData.sourceIp d = Some "".
Proof. eexists. split; vm_compute; reflexivity. Qed.
End Instances.


(** ** Coverage of the drawing *)

Section Coverage.
Import NetworkTopology.

Lemma drawn_deviceNode dev x y :
  omap rectDevice (subelements (deviceNode dev x y)) = [dev].
Proof.
  unfold deviceNode, riskIndicators.
  destruct (_ || _); destruct (String.eqb _ "warning"); reflexivity.
Qed.

Lemma paths_deviceNode dev x y :
  List.filter isPath (subelements (deviceNode dev x y)) = [].
Proof.
  unfold deviceNode, riskIndicators.
  destruct (_ || _); destruct (String.eqb _ "warning"); reflexivity.
Qed.

Lemma drawn_group key els :
  omap rectDevice (subelements (g key els))
  = omap rectDevice (concat (map subelements els)).
Proof. reflexivity. Qed.

Lemma paths_group key els :
  List.filter isPath (subelements (g key els))
  = List.filter isPath (concat (map subelements els)).
Proof. reflexivity. Qed.

Lemma subelements_cons_concat e els :
  concat (map subelements (e :: els))
  = subelements e ++ concat (map subelements els).
Proof. reflexivity. Qed.

Lemma childElements_callback dev cs x y level W :
  ∃ f, childElements dev cs x y level W = forEachPush f cs 0%nat
       ∧ pushesConnectorAndChild f.
Proof.
  eexists. split; [reflexivity|]. intros c i. eauto 10.
Qed.

Lemma drawn_forEachPush f cs k :
  pushesConnectorAndChild f →
  Forall (λ c, ∀ x y level W,
            drawnDevices (renderDeviceHierarchy c x y level W) = preorder c) cs →
  omap rectDevice (concat (map subelements (forEachPush f cs k)))
  = concat (map preorder cs).
Proof.
  intros Hf Hcs. revert k. induction Hcs as [|c cs Hc Hcs IH]; intros k; [done|].
  cbn [forEachPush]. destruct (Hf c k) as (key & d & st & cx & cy & lvl & W' & ->).
  cbn [app map concat]. rewrite !omap_app, IH.
  change (omap rectDevice (subelements (path key d st))) with (@nil Device.t).
  cbn [app]. f_equal. apply Hc.
Qed.

Lemma paths_forEachPush f cs k :
  pushesConnectorAndChild f →
  Forall (λ c, ∀ x y level W,
            S (connectorCount (renderDeviceHierarchy c x y level W))
            = length (preorder c)) cs →
  length (List.filter isPath (concat (map subelements (forEachPush f cs k))))
  = length (concat (map preorder cs)).
Proof.
  intros Hf Hcs. revert k. induction Hcs as [|c cs Hc Hcs IH]; intros k; [done|].
  cbn [forEachPush]. destruct (Hf c k) as (key & d & st & cx & cy & lvl & W' & ->).
  cbn [app map concat]. rewrite !List.filter_app, !length_app, IH.
  change (List.filter isPath (subelements (path key d st)))
    with [path key d st].
  rewrite <- (Hc cx cy lvl W'). unfold connectorCount. cbn [length]. lia.
Qed.

Lemma drawn_hierarchy (t : DeviceNode) (x y : Q) (level : nat) (W : Q) :
  drawnDevices (renderDeviceHierarchy t x y level W) = preorder t.
Proof.
  revert x y level W.
  induction t as [dev | dev cs IH] using DeviceNode_tree_ind;
    intros x y level W; unfold drawnDevices;
    rewrite renderDeviceHierarchy_unfold, drawn_group,
      subelements_cons_concat, omap_app, drawn_deviceNode;
    cbn [preorder nodeDevice nodeChildren app]; f_equal; [].
  destruct cs as [|c cs]; [reflexivity|]. cbn [length Nat.ltb Nat.leb].
  destruct (childElements_callback dev (c :: cs) x y level W) as (f & -> & Hf).
  by apply drawn_forEachPush.
Qed.

Lemma connectors_hierarchy (t : DeviceNode) (x y : Q) (level : nat) (W : Q) :
  S (connectorCount (renderDeviceHierarchy t x y level W))
  = length (preorder t).
Proof.
  revert x y level W.
  induction t as [dev | dev cs IH] using DeviceNode_tree_ind;
    intros x y level W; unfold connectorCount;
    rewrite renderDeviceHierarchy_unfold, paths_group,
      subelements_cons_concat, List.filter_app, paths_deviceNode;
    cbn [preorder nodeDevice nodeChildren app length]; f_equal; [].
  destruct cs as [|c cs]; [reflexivity|]. cbn [length Nat.ltb Nat.leb].
  destruct (childElements_callback dev (c :: cs) x y level W) as (f & -> & Hf).
  by apply paths_forEachPush.
Qed.

(** X1. [renderDeviceHierarchy] draws every device of the tree exactly
    once and one connector per parent-child edge: the clickable
    rectangles, read in document order, are the devices of the tree in
    pre-order, and the number of connector paths is the number of devices
    minus one, whatever the position, level and width. *)
Theorem hierarchy_draws_each_device_once
    (t : DeviceNode) (x y : Q) (level : nat) (W : Q) :
  drawnDevices (renderDeviceHierarchy t x y level W) = preorder t
  ∧ S (connectorCount (renderDeviceHierarchy t x y level W))
    = length (drawnDevices (renderDeviceHierarchy t x y level W)).
Proof.
  split; [apply drawn_hierarchy|].
  rewrite drawn_hierarchy. apply connectors_hierarchy.
Qed.

Example chain_drawn :
  drawnDevices (renderDeviceHierarchy chain 170 320 0 260)
  = [firewall1; switch5; switch6; server7; server8].
Proof. reflexivity. Qed.
End Coverage.

(** ** Rows and the level argument *)

Section Rows.
Import NetworkTopology.

Lemma forEachPush_ext {A B} (f f' : A → nat → list B) xs k :
  Forall (λ x, ∀ i, f x i = f' x i) xs →
  forEachPush f xs k = forEachPush f' xs k.
Proof.
  intros H. revert k. induction H as [|x xs Hx _ IH]; intros k; [done|].
  cbn [forEachPush]. by rewrite Hx, IH.
Qed.

(** X2. The [level] argument plays no part in the drawing: two calls that
    differ only in [level] return the same elements, at every depth. *)
Theorem level_plays_no_part
    (t : DeviceNode) (x y : Q) (level level' : nat) (W : Q) :
  renderDeviceHierarchy t x y level W = renderDeviceHierarchy t x y level' W.
Proof.
  revert x y level level' W.
  induction t as [dev | dev cs IH] using DeviceNode_tree_ind;
    intros x y level level' W; [reflexivity|].
  rewrite !renderDeviceHierarchy_unfold. do 2 f_equal.
  destruct (0 <? length cs)%nat; [|reflexivity].
  unfold childElements. apply forEachPush_ext.
  eapply Forall_impl; [exact IH|]. intros c Hc i. cbn beta.
  do 2 f_equal. apply Hc.
Qed.

Lemma childElements_shape_row dev cs x y level W s :
  s ∈ childElements dev cs x y level W →
  (∃ k d st, s = path k d st)
  ∨ (∃ c cx W', c ∈ cs
       ∧ s = renderDeviceHierarchy c cx (y + verticalSpacing) (S level) W').
Proof.
  unfold childElements. intros H.
  apply elem_of_forEachPush in H as (c & i & Hc & Hs).
  apply elem_of_cons in Hs as [-> | Hs]; [left; eauto |].
  apply elem_of_cons in Hs as [-> | Hs]; [right; eauto 10 |].
  by apply elem_of_nil in Hs.
Qed.

Lemma deviceNode_rect dev x y e a :
  e ∈ subelements (deviceNode dev x y) → e = rect a →
  rect_x a = x ∧ rect_y a = y ∧ rect_width a = nodeWidth dev
  ∧ rect_height a = nodeHeight.
Proof.
  unfold deviceNode. intros He ->.
  rewrite subelements_g in He.
  apply elem_of_cons in He as [He | He]; [discriminate He|].
  apply elem_of_concat_map in He as (s & Hs & He).
  cbn [app] in Hs. rewrite !elem_of_cons in Hs.
  destruct Hs as [-> | [-> | [-> | Hs]]].
  - cbn in He. apply list_elem_of_singleton in He. by injection He as ->.
  - cbn in He. apply list_elem_of_singleton in He. discriminate He.
  - cbn in He. apply list_elem_of_singleton in He. discriminate He.
  - apply riskIndicators_circles in Hs as [c ->].
    cbn in He. apply list_elem_of_singleton in He. discriminate He.
Qed.

(** X3. Every device rectangle of a hierarchy drawn at [(x, y)] lies on a
    row [y + 70 * k] for a natural number [k] (its depth below the root),
    is 40 high, and is 50 or 60 wide. *)
Theorem hierarchy_nodes_lie_on_rows
    (t : DeviceNode) (x y : Q) (level : nat) (W : Q) (e : Svg) (a : RectAttrs) :
  e ∈ subelements (renderDeviceHierarchy t x y level W) →
  e = rect a →
  (∃ k : nat, rect_y a == y + 70 * ofNat k)
  ∧ rect_height a = 40
  ∧ (rect_width a = 50 ∨ rect_width a = 60).
Proof.
  revert x y level W.
  assert (∀ dev x y e, e ∈ subelements (deviceNode dev x y) → e = rect a →
            (∃ k : nat, rect_y a == y + 70 * ofNat k)
            ∧ rect_height a = 40
            ∧ (rect_width a = 50 ∨ rect_width a = 60)) as Hnode.
  { intros dev x y e' He' Heq.
    destruct (deviceNode_rect _ _ _ _ _ He' Heq) as (_ & Hy & Hw & Hh).
    split; [exists 0%nat; rewrite Hy;
            change (ofNat 0) with (0 : Q); ring|].
    split; [done|]. rewrite Hw. unfold nodeWidth.
    destruct (String.eqb _ _); [by left | by right]. }
  induction t as [dev | dev cs IH] using DeviceNode_tree_ind;
    intros x y level W; rewrite renderDeviceHierarchy_unfold, subelements_g,
      elem_of_cons, subelements_cons_concat, elem_of_app, elem_of_concat_map.
  - intros [-> | [He | (s & Hs & _)]] Heq; [discriminate Heq | by eapply Hnode |].
    by apply elem_of_nil in Hs.
  - intros [-> | [He | (s & Hs & He)]] Heq; [discriminate Heq | by eapply Hnode |].
    destruct (0 <? length cs)%nat; [|by apply elem_of_nil in Hs].
    apply childElements_shape_row in Hs
      as [(k & p & st & ->) | (c & cx & W' & Hc & ->)].
    + cbn in He. apply list_elem_of_singleton in He. congruence.
    + rewrite Forall_forall in IH.
      destruct (IH c Hc cx (y + verticalSpacing) (S level) W' He Heq)
        as ((k & Hk) & Hh & Hw).
      split; [|done]. exists (S k). rewrite Hk, ofNat_S.
      unfold verticalSpacing. ring.
Qed.
End Rows.

(** ** Bands and boxes *)

Section Bands.
Import NetworkTopology.

Lemma ofNat_nonneg i : 0 <= ofNat i.
Proof.
  unfold ofNat. change 0 with (inject_Z 0). rewrite <- Zle_Qle. lia.
Qed.

Lemma ofNat_lt i n : (i < n)%nat → ofNat i + 1 <= ofNat n.
Proof.
  intros Hi. rewrite <- ofNat_S. unfold ofNat. rewrite <- Zle_Qle. lia.
Qed.

Lemma ofNat_pos n : (0 < n)%nat → 0 < ofNat n.
Proof.
  intros Hn. unfold ofNat. change 0 with (inject_Z 0). rewrite <- Zlt_Qlt. lia.
Qed.

(** The slot centre of child [i] stays inside the band of width [W]
    centred on [x]. *)
Lemma slot_centre_in_band x W n i :
  0 <= W → (i < n)%nat →
  x - W / 2 <= childX x W (W / ofNat n) i + 25
  ∧ childX x W (W / ofNat n) i + 25 <= x + W / 2.
Proof.
  intros HW Hi. unfold childX.
  assert (0 < ofNat n) as Hn by (apply ofNat_pos; lia).
  pose proof (ofNat_nonneg i) as Hi0.
  pose proof (ofNat_lt _ _ Hi) as Hi1.
  set (cw := W / ofNat n).
  assert (cw * ofNat n == W) as Hcw.
  { unfold cw. field. intros H0. rewrite H0 in Hn. by apply Qlt_irrefl in Hn. }
  assert (0 <= cw) as Hcw0.
  { unfold cw. apply Qle_shift_div_l; [done|]. by rewrite Qmult_0_l. }
  assert (0 <= cw * ofNat i) as H1 by (by apply Qmult_le_0_compat).
  assert (0 <= cw * (ofNat n - ofNat i - 1)) as H2.
  { apply Qmult_le_0_compat; [done|]. lra. }
  assert (cw * (ofNat n - ofNat i - 1)
          == W - cw * ofNat i - cw) as H3 by (rewrite <- Hcw; ring).
  rewrite H3 in H2. clear H3 Hcw. clearbody cw.
  generalize dependent (cw * ofNat i). intros p Hp1 Hp2.
  change (W / 2) with (W * (1 # 2)). change (cw / 2) with (cw * (1 # 2)).
  split; lra.
Qed.

(** X4. The children of a node drawn at [(x, y)] with available width
    [W >= 0] are anchored inside the band of width [W] centred on the
    parent's x-coordinate: the slot centre [childX + 25] of every child
    lies between [x - W/2] and [x + W/2]. *)
Theorem children_stay_in_band
    (dev : Device.t) (cs : list DeviceNode) (x y : Q) (level : nat) (W : Q)
    (i : nat) (c : DeviceNode) :
  0 <= W →
  cs !! i = Some c →
  ∃ key els child cx cy,
    renderDeviceHierarchy (mkDeviceNode dev (Some cs)) x y level W = g key els
    ∧ els !! (2 * i + 2)%nat = Some child
    ∧ hierarchyOrigin child = Some (cx, cy)
    ∧ x - W / 2 <= cx + 25
    ∧ cx + 25 <= x + W / 2.
Proof.
  intros HW Hi.
  pose proof (lookup_lt_Some _ _ _ Hi) as Hlt.
  destruct (renderDeviceHierarchy_child dev cs x y level W i c) as
    (key & els & Heq & _ & _ & Hchild); [lia | done |].
  eexists key, els, _, _, _. split; [exact Heq|]. split; [exact Hchild|].
  split; [apply hierarchyOrigin_render|].
  by apply slot_centre_in_band.
Qed.

End Bands.

(** ** The whole diagram *)

Section Diagram.
Import NetworkTopology.

Lemma allDrawn_app l1 l2 : allDrawn (l1 ++ l2) = allDrawn l1 ++ allDrawn l2.
Proof. unfold allDrawn. by rewrite map_app, concat_app. Qed.

Lemma allDrawn_map (node : Device.t → Svg) ds :
  (∀ d, drawnDevices (node d) = [d]) → allDrawn (map node ds) = ds.
Proof.
  intros Hnode. unfold allDrawn.
  induction ds as [|d ds IH]; [done|]. cbn. by rewrite Hnode, IH.
Qed.

Lemma drawn_switchNode sites d : drawnDevices (switchNode sites d) = [d].
Proof.
  unfold switchNode. destruct (sites ≫= _) as [s|]; [|reflexivity].
  destruct (negb _); reflexivity.
Qed.

Lemma drawn_hierarchies (f : DeviceNode → nat → list Svg) devs k :
  (∀ c i, ∃ cx cy lvl W, f c i = [renderDeviceHierarchy c cx cy lvl W]) →
  omap rectDevice (concat (map subelements (forEachPush f devs k)))
  = concat (map preorder devs).
Proof.
  intros Hf. revert k. induction devs as [|c devs IH]; intros k; [done|].
  cbn [forEachPush]. destruct (Hf c k) as (cx & cy & lvl & W & ->).
  cbn [app map concat]. rewrite omap_app, IH. f_equal. apply drawn_hierarchy.
Qed.

Lemma drawn_siteArea site siteIndex :
  drawnDevices (siteArea site siteIndex)
  = concat (map preorder (default [] (TopologyNode.devices site))).
Proof.
  unfold drawnDevices, siteArea. rewrite drawn_group. cbn [app].
  rewrite !subelements_cons_concat, !omap_app.
  destruct (TopologyNode.devices site) as [devs|]; [|reflexivity].
  cbn [default].
  match goal with
  | |- context [forEachPush ?f devs 0%nat] =>
      rewrite (drawn_hierarchies f devs 0%nat) by (intros c i; eauto)
  end.
  reflexivity.
Qed.

Lemma allDrawn_siteAreas ts k :
  allDrawn (forEachPush (fun site siteIndex => [siteArea site siteIndex]) ts k)
  = concat (map (fun site =>
                   concat (map preorder (default [] (TopologyNode.devices site))))
                ts).
Proof.
  revert k. induction ts as [|site ts IH]; intros k; [done|].
  cbn [forEachPush app]. unfold allDrawn in *. cbn [map concat].
  by rewrite IH, drawn_siteArea.
Qed.

Lemma networkDevices_types filtered d :
  d ∈ networkDevices filtered → isNetworkType (Device.type d).
Proof.
  unfold networkDevices. destruct filtered as [ds|]; cbn;
    [|intros H; by apply elem_of_nil in H].
  rewrite list_elem_of_In, filter_In, !orb_true_iff, !String_eqb_true.
  unfold isNetworkType. tauto.
Qed.

(** Splitting a list of network devices by type loses and repeats
    nothing. *)
Lemma ofType_partition nds :
  Forall (λ d, isNetworkType (Device.type d)) nds →
  ofType "firewall" nds ++ ofType "router" nds ++ ofType "switch" nds ≡ₚ nds.
Proof.
  induction 1 as [|d nds Hd _ IH]; [done|].
  unfold ofType in *. cbn [List.filter].
  set (F := List.filter _ nds) in *.
  set (R := List.filter (λ d, String.eqb (Device.type d) "router") nds) in *.
  set (S := List.filter (λ d, String.eqb (Device.type d) "switch") nds) in *.
  destruct Hd as [Hd | [Hd | Hd]]; rewrite Hd; cbn [String.eqb Ascii.eqb Bool.eqb app].
  - by constructor.
  - etrans; [|apply perm_skip, IH].
    rewrite (app_assoc F R (d :: S)), (app_assoc F R S).
    symmetry. apply Permutation_middle.
  - etrans; [|apply perm_skip, IH]. symmetry. apply Permutation_middle.
Qed.
End Diagram.

Section DiagramProperties.
Import NetworkTopology.

Lemma allDrawn_diagram sites devices topology S T :
  allDrawn (diagram sites devices topology S T)
  = ofType "firewall" (networkDevices (filteredDevices devices S T))
    ++ ofType "router" (networkDevices (filteredDevices devices S T))
    ++ ofType "switch" (networkDevices (filteredDevices devices S T))
    ++ topologyDevices topology.
Proof.
  unfold diagram. rewrite !allDrawn_app.
  rewrite !allDrawn_map
    by (first [intros d; reflexivity | apply drawn_switchNode]).
  do 3 f_equal. unfold topologyDevices.
  destruct topology as [ts|]; [apply allDrawn_siteAreas | reflexivity].
Qed.

(** X6. The diagram shows every filtered firewall, router and switch
    exactly once in the static tiers (grouped by type), followed by every
    device of every site's hierarchies in pre-order; the site areas do not
    depend on the two filters. *)
Theorem diagram_draws_filtered_network_devices_once
    (sites : option (list Site.t)) (devices : option (list Device.t))
    (topology : option (list TopologyNode.t)) (S T : string) :
  allDrawn (diagram sites devices topology S T)
  = ofType "firewall" (networkDevices (filteredDevices devices S T))
    ++ ofType "router" (networkDevices (filteredDevices devices S T))
    ++ ofType "switch" (networkDevices (filteredDevices devices S T))
    ++ topologyDevices topology
  ∧ allDrawn (diagram sites devices topology S T)
    ≡ₚ networkDevices (filteredDevices devices S T) ++ topologyDevices topology.
Proof.
  split; [apply allDrawn_diagram|].
  rewrite allDrawn_diagram, !app_assoc. apply Permutation_app_tail.
  rewrite <- app_assoc. apply ofType_partition, Forall_forall.
  intros d. apply networkDevices_types.
Qed.

Lemma networkDevices_nil_of_type devices S T :
  T ≠ "all" → ¬ isNetworkType T →
  networkDevices (filteredDevices devices S T) = [].
Proof.
  intros Hall Hnet. unfold networkDevices, filteredDevices.
  destruct devices as [ds|]; [|reflexivity]. cbn.
  induction ds as [|d ds IH]; [reflexivity|]. cbn.
  destruct (String.eqb_spec T "all") as [|_]; [done|]. cbn [orb].
  destruct (String.eqb_spec (Device.type d) T) as [Hd|Hd];
    rewrite ?andb_false_r; [|exact IH].
  destruct (_ || _); cbn [andb]; [|exact IH]. cbn.
  destruct (String.eqb_spec (Device.type d) "firewall") as [Hf|Hf];
    [destruct Hnet; left; congruence|].
  destruct (String.eqb_spec (Device.type d) "switch") as [Hs|Hs];
    [destruct Hnet; right; left; congruence|].
  destruct (String.eqb_spec (Device.type d) "router") as [Hr|Hr];
    [destruct Hnet; right; right; congruence|].
  exact IH.
Qed.

(** X7. With a device-type filter other than "all", "firewall", "switch"
    or "router" (the three offered are "server", "network" and
    "storage") no device passes both the type filter and the network-tier
    test: the static tiers are empty and the diagram consists of the site
    areas alone, as it would with an empty device list. *)
Theorem type_filter_empties_static_tiers
    (sites : option (list Site.t)) (devices : option (list Device.t))
    (topology : option (list TopologyNode.t)) (S T : string) :
  T ≠ "all" → ¬ isNetworkType T →
  networkDevices (filteredDevices devices S T) = []
  ∧ diagram sites devices topology S T
    = diagram sites (Some []) topology "all" "all"
  ∧ allDrawn (diagram sites devices topology S T) = topologyDevices topology.
Proof.
  intros Hall Hnet.
  pose proof (networkDevices_nil_of_type devices S T Hall Hnet) as Hnil.
  split; [exact Hnil|]. split.
  - unfold diagram. by rewrite Hnil.
  - by rewrite allDrawn_diagram, Hnil.
Qed.
End DiagramProperties.

(** ** Site areas *)

Section SiteAreas.
Import NetworkTopology.

Lemma forEachPush_singletons {A B} (f : A → nat → list B) xs k i x :
  (∀ a j, length (f a j) = 1%nat) →
  xs !! i = Some x →
  forEachPush f xs k !! i = f x (k + i)%nat !! 0%nat.
Proof.
  intros Hf. revert k i. induction xs as [|a xs IH]; intros k i Hi; [done|].
  cbn [forEachPush]. pose proof (Hf a k) as Hlen.
  destruct (f a k) as [|b [|b' l]] eqn:Hfa; cbn in Hlen; try lia.
  destruct i as [|i].
  - injection Hi as <-. by rewrite Nat.add_0_r, Hfa.
  - cbn in Hi. replace (k + S i)%nat with (S k + i)%nat by lia.
    cbn. by apply IH.
Qed.

(** Horizontal offset of top-level device [i] of [n] in a box whose inner
    width is [inner]. *)
Lemma top_level_offset_in_box (inner : Q) i n :
  0 < inner → (i < n)%nat →
  0 <= ofNat i * inner / ofNat (Nat.max 1 n)
  ∧ ofNat i * inner / ofNat (Nat.max 1 n) < inner.
Proof.
  intros Hin Hi. rewrite Nat.max_r by lia.
  assert (0 < ofNat n) as Hn by (apply ofNat_pos; lia).
  pose proof (ofNat_nonneg i) as Hi0.
  pose proof (ofNat_lt _ _ Hi) as Hi1.
  split.
  - apply Qle_shift_div_l; [done|]. rewrite Qmult_0_l.
    apply Qmult_le_0_compat; [done | by apply Qlt_le_weak].
  - apply Qlt_shift_div_r; [done|].
    rewrite (Qmult_comm inner). apply Qmult_lt_compat_r; [done|].
    apply Qlt_le_trans with (ofNat i + 1); [|done].
    rewrite <- (Qplus_0_r (ofNat i)) at 1. by apply Qplus_lt_r.
Qed.

(** X8. Every top-level device of a site is anchored inside the site's
    dashed box: its hierarchy is drawn, at level 0 and with the box's inner
    width, 60 below the top of the box and between 20 right of the box's
    left edge and 20 left of its right edge. *)
Theorem top_level_devices_anchored_in_site_box
    (site : TopologyNode.t) (siteIndex : nat) (devs : list DeviceNode)
    (i : nat) (c : DeviceNode) :
  TopologyNode.devices site = Some devs →
  devs !! i = Some c →
  ∃ key box rest dx dy,
    siteArea site siteIndex = g key (rect box :: rest)
    ∧ rest !! S i
      = Some (renderDeviceHierarchy c dx dy 0 (rect_width box - 40))
    ∧ dy = rect_y box + 60
    ∧ rect_x box + 20 <= dx
    ∧ dx < rect_x box + rect_width box - 20.
Proof.
  intros Hdevs Hi. pose proof (lookup_lt_Some _ _ _ Hi) as Hlt.
  unfold siteArea. rewrite Hdevs. cbn [app].
  eexists _, _, _, _, _. split; [reflexivity|]. cbn [lookup list_lookup].
  match goal with
  | |- context [forEachPush ?f devs 0%nat] =>
      pose proof (forEachPush_singletons f devs 0%nat i c
                    (λ _ _, eq_refl) Hi) as Hlook
  end.
  split; [etrans; [exact Hlook | reflexivity]|].
  split; [reflexivity|]. cbn [rect_x rect_width].
  destruct (Nat.eqb siteIndex 0).
  - destruct (top_level_offset_in_box (300 - 40) i (length devs)) as [H1 H2];
      [reflexivity | done |].
    cbn [Nat.add] in *. split; lra.
  - destruct (top_level_offset_in_box (200 - 40) i (length devs)) as [H1 H2];
      [reflexivity | done |].
    cbn [Nat.add] in *. split; lra.
Qed.
End SiteAreas.

(** ** Labels *)

Section Labels.
Import NetworkTopology.





Example label_examples :
  label 6 5 "core-switch" = "core-..." ∧ label 6 5 "db-7" = "db-7"
  ∧ label 10 8 "edge-firewall" = "edge-fir...".
Proof. repeat split. Qed.
End Labels.

(** ** Device details *)

Section Details.
Import NetworkTopology.

Lemma find_by_unique_id (ds : list Device.t) (d : Device.t) :
  NoDup (map Device.id ds) → d ∈ ds →
  List.find (fun d' => Z.eqb (Device.id d') (Device.id d)) ds = Some d.
Proof.
  induction ds as [|a ds IH]; intros Hnd Hd; [by apply elem_of_nil in Hd|].
  cbn in Hnd. apply NoDup_cons in Hnd as [Ha Hnd]. cbn [List.find].
  apply elem_of_cons in Hd as [-> | Hd]; [by rewrite Z.eqb_refl|].
  destruct (Z.eqb_spec (Device.id a) (Device.id d)) as [Heq|_]; [|by apply IH].
  destruct Ha. rewrite Heq. apply list_elem_of_In, in_map.
  by apply list_elem_of_In.
Qed.

Lemma elem_of_childDevices sites ds d c :
  c ∈ childDevices (handleDeviceClick sites (Some ds) d)
  ↔ c ∈ ds ∧ Device.parentDeviceId c = Some (Device.id d).
Proof.
  cbn. rewrite list_elem_of_In, filter_In, <- list_elem_of_In.
  destruct (Device.parentDeviceId c) as [p|]; [|split; intros [? ?]; done].
  destruct (Z.eqb_spec p (Device.id d)) as [->|Hne];
    split; intros [? ?]; (done || congruence).
Qed.

(** X10. With unique device ids, the parent and child joins of the
    details dialog agree: clicking a device listed among the children of
    [d] shows [d] as its parent, except when [d]'s id is 0, in which case
    the child is shown as a top-level device (the parent reference 0 is
    falsy). *)
Theorem child_details_show_parent
    (sites : option (list Site.t)) (ds : list Device.t) (d c : Device.t) :
  NoDup (map Device.id ds) →
  d ∈ ds →
  c ∈ childDevices (handleDeviceClick sites (Some ds) d) →
  parentDevice (handleDeviceClick sites (Some ds) c)
  = if Z.eqb (Device.id d) 0 then None else Some d.
Proof.
  intros Hnd Hd Hc. apply elem_of_childDevices in Hc as [_ Hp].
  cbn. rewrite Hp. destruct (Z.eqb (Device.id d) 0); [done|].
  by apply find_by_unique_id.
Qed.

(** X11. Every record joined into the details belongs to the clicked
    device: the listed children are exactly the devices whose parent
    reference is its id; a shown parent is a device of the list whose
    non-zero id is its parent reference; a shown site name is the name of a
    site with its site id; without a device list there are no children and
    no parent. *)
Theorem details_join_is_sound
    (sites : option (list Site.t)) (devices : option (list Device.t))
    (d : Device.t) :
  details_device (handleDeviceClick sites devices d) = d
  ∧ (∀ c, c ∈ childDevices (handleDeviceClick sites devices d)
          ↔ ∃ ds, devices = Some ds ∧ c ∈ ds
                  ∧ Device.parentDeviceId c = Some (Device.id d))
  ∧ (∀ p, parentDevice (handleDeviceClick sites devices d) = Some p →
          ∃ ds, devices = Some ds ∧ p ∈ ds
                ∧ Device.parentDeviceId d = Some (Device.id p)
                ∧ Device.id p ≠ 0%Z)
  ∧ (∀ n, siteName (handleDeviceClick sites devices d) = Some n →
          ∃ ss s, sites = Some ss ∧ s ∈ ss
                  ∧ Site.id s = Device.siteId d ∧ Site.name s = n).
Proof.
  split; [reflexivity|]. split; [|split].
  - intros c. destruct devices as [ds|].
    + rewrite elem_of_childDevices. split.
      * intros [? ?]. eauto.
      * intros (ds' & [= <-] & ? & ?). done.
    + cbn. split; [intros H; by apply elem_of_nil in H | intros (? & [=] & _)].
  - intros p. cbn. destruct (Device.parentDeviceId d) as [pid|]; [|done].
    destruct (Z.eqb_spec pid 0) as [|Hpid]; [done|].
    destruct devices as [ds|]; [|done]. cbn. intros Hfind.
    apply find_some in Hfind as [Hin Heq]. apply Z.eqb_eq in Heq.
    exists ds. rewrite list_elem_of_In. split; [done|]. split; [done|].
    split; congruence.
  - intros n. cbn. destruct sites as [ss|]; [|done]. cbn.
    destruct (List.find _ ss) as [s|] eqn:Hfind; [|done]. cbn. intros [= <-].
    apply find_some in Hfind as [Hin Heq]. apply Z.eqb_eq in Heq.
    exists ss, s. by rewrite list_elem_of_In.
Qed.
End Details.

(** ** Offering and using the transition controls *)

Section Offering.
Import ChangeManagement.






Lemma no_transition_among_rows (l : list ChangeRequest.t) :
  List.filter isTransition
    (map (fun request => mkControl "View" (ViewDetails request) false) l) = [].
Proof. induction l as [|r l IH]; [done | exact IH]. Qed.

Lemma detailsDialog_at_most_one st : (length (detailsDialog st) ≤ 1)%nat.
Proof.
  unfold detailsDialog. destruct (selectedRequest st) as [r|]; [|cbn; lia].
  unfold approveSection, implementSection.
  destruct (String.eqb_spec (ChangeRequest.status r) "pending") as [Hp|Hp];
    destruct (String.eqb_spec (ChangeRequest.status r) "approved") as [Ha|Ha];
    [congruence | | |]; cbn [andb];
    repeat (destruct (_ || _)); cbn; lia.
Qed.

(** X13. The page never offers approval and implementation together:
    among the rendered controls at most one is an approve or implement
    control, whatever the user's role and the selected request. *)
Theorem at_most_one_transition_control (st : State) :
  (length (List.filter isTransition (render st)) ≤ 1)%nat.
Proof.
  unfold render. destruct (isLoading st); [cbn; lia|].
  rewrite !List.filter_app, no_transition_among_rows. cbn [app List.filter map
    isTransition onClick fst snd length].
  etrans; [apply List.filter_length_le|]. apply detailsDialog_at_most_one.
Qed.

End Offering.

(** ** Traces *)

Section Traces.
Import ChangeManagement.

Lemma submit_control_rendered st c :
  c ∈ render st → onClick c = Submit → disabled c = createPending st.
Proof.
  intros Hc Hclick.
  destruct (elem_of_render _ _ Hc)
    as [-> | [-> | [(l & tab & ->) | [(rq & ->) | (r & Hsel & [H | H])]]]];
    try discriminate Hclick; [done | |].
  - apply approveSection_spec in H as (-> & _). discriminate Hclick.
  - apply implementSection_spec in H as (-> & _). discriminate Hclick.
Qed.

Lemma posts_send rq st :
  posts (send rq st) = (posts st + inFlight (isPost rq))%nat.
Proof.
  unfold posts. cbn. rewrite List.filter_app, length_app. cbn.
  destruct (isPost rq); cbn; lia.
Qed.

Lemma createPending_invalidateQueries key st :
  createPending (invalidateQueries key st) = createPending st.
Proof. unfold invalidateQueries. by destruct (queries st !! key). Qed.

Lemma createPending_onSuccess k response st :
  createPending (onSuccess k response (setPending k false st))
  = match k with Create => false | _ => createPending st end.
Proof.
  destruct k; cbn -[invalidateQueries];
    by rewrite createPending_invalidateQueries.
Qed.

(** One step keeps the balance between create requests sent and create
    results received. *)
Lemma posts_step st ev n :
  (posts st + 0 ≤ n + inFlight (createPending st))%nat →
  (posts (step st ev)
   ≤ n + inFlight (isCreateSettled ev)
     + inFlight (createPending (step st ev)))%nat.
Proof.
  intros Hinv. destruct ev as [i|v|b|b|k response|k message|key d];
    cbn [step isCreateSettled inFlight].
  - destruct (render st !! i) as [c|] eqn:Hi; [|lia].
    destruct (disabled c) eqn:Hen; [lia|].
    assert (c ∈ render st) as Hc by (by eapply list_elem_of_lookup_2).
    destruct (onClick c) eqn:Hclick; cbn [perform].
    + unfold posts in *. cbn in *. lia.
    + pose proof (submit_control_rendered _ _ Hc Hclick) as Hsub.
      rewrite Hen in Hsub. rewrite <- Hsub in Hinv. unfold handleSubmit.
      destruct (requestFormSchema (formValues st)) as [issues|d].
      * unfold posts in *. cbn in *. rewrite <- Hsub. cbn. lia.
      * unfold handleCreateRequest. rewrite posts_send.
        unfold posts in *. cbn in *. lia.
    + unfold posts in *. cbn in *. lia.
    + unfold posts in *. cbn in *. lia.
    + unfold handleApproveRequest. rewrite posts_send.
      unfold posts in *. cbn in *. lia.
    + unfold handleImplementRequest. rewrite posts_send.
      unfold posts in *. cbn in *. lia.
  - unfold posts in *. cbn in *. lia.
  - unfold posts in *. cbn in *. lia.
  - unfold posts in *. cbn in *. lia.
  - unfold posts in *. rewrite requests_onSuccess, List.filter_app, length_app.
    assert (length (List.filter isPost
                      match queries st !! changeRequestsKey with
                      | Some _ => [mkApiRequest "GET" changeRequestsKey NoBody]
                      | None => []
                      end) = 0%nat) as ->
      by (by destruct (queries st !! changeRequestsKey)).
    rewrite createPending_onSuccess.
    destruct k; cbn; destruct (createPending st); cbn in *; lia.
  - unfold posts in *. rewrite requests_onError.
    destruct k; cbn; destruct (createPending st); cbn in *; lia.
  - unfold posts in *. cbn in *. lia.
Qed.

Lemma posts_run evs st n :
  (posts st + 0 ≤ n + inFlight (createPending st))%nat →
  (posts (run st evs)
   ≤ n + length (List.filter isCreateSettled evs)
     + inFlight (createPending (run st evs)))%nat.
Proof.
  revert st n. induction evs as [|ev evs IH]; intros st n Hinv;
    [cbn in *; lia|].
  cbn [run fold_left List.filter].
  pose proof (posts_step st ev n Hinv) as Hstep.
  specialize (IH (step st ev) (n + inFlight (isCreateSettled ev))%nat).
  unfold run in IH.
  destruct (isCreateSettled ev); cbn [inFlight length] in *; lia.
Qed.

(** X14. No create request is sent while another is in flight: over any
    sequence of events from the freshly mounted page, the number of POSTs
    sent is at most the number of create results received, plus one if a
    create is pending. *)
Theorem no_double_submission (u : option User.t) (evs : list Event) :
  (posts (run (initialState u) evs)
   ≤ length (List.filter isCreateSettled evs)
     + inFlight (createPending (run (initialState u) evs)))%nat.
Proof.
  pose proof (posts_run evs (initialState u) 0) as H.
  cbn [Nat.add] in H. apply H. cbn. lia.
Qed.

Lemma toasts_invalidateQueries key st :
  toasts (invalidateQueries key st) = toasts st.
Proof. unfold invalidateQueries. by destruct (queries st !! key). Qed.

Lemma toasts_step st ev :
  length (toasts (step st ev))
  = (length (toasts st) + inFlight (isSettled ev))%nat.
Proof.
  destruct ev as [i|v|b|b|k response|k message|key d];
    cbn [step isSettled inFlight]; try (cbn; lia).
  - destruct (render st !! i) as [c|]; [|lia].
    destruct (disabled c); [lia|].
    destruct (onClick c); cbn; try lia.
    unfold handleSubmit. destruct (requestFormSchema (formValues st)); cbn; lia.
  - destruct k; cbn -[invalidateQueries];
      rewrite length_app, toasts_invalidateQueries; cbn; lia.
  - destruct k; cbn; rewrite length_app; cbn; lia.
Qed.

(** X15. The page notifies once per mutation result and never otherwise:
    over any sequence of events the number of toast calls grows by the
    number of success and failure results among them. *)
Theorem one_toast_per_mutation_result (st : State) (evs : list Event) :
  length (toasts (run st evs))
  = (length (toasts st) + length (List.filter isSettled evs))%nat.
Proof.
  revert st. induction evs as [|ev evs IH]; intros st; [cbn; lia|].
  cbn [run fold_left List.filter]. unfold run in IH.
  rewrite IH, toasts_step. destruct (isSettled ev); cbn; lia.
Qed.
End Traces.

(** ** The request table and the form *)

Section TableAndForm.
Import ChangeManagement.





(** X18. After a successful create the dialog is closed and the form is
    back at its defaults, whose description is empty: submitting it again
    as it stands sends nothing and reports "Description is required". *)
Theorem reset_form_cannot_be_resubmitted
    (st : State) (response : ChangeRequest.t) :
  dialogOpen (step st (Succeeded Create response)) = false
  ∧ createPending (step st (Succeeded Create response)) = false
  ∧ formValues (step st (Succeeded Create response)) = defaultValues
  ∧ formErrors (step st (Succeeded Create response)) = []
  ∧ requests (handleSubmit (step st (Succeeded Create response)))
    = requests (step st (Succeeded Create response))
  ∧ formErrors (handleSubmit (step st (Succeeded Create response)))
    = [mkIssue description "Description is required"].
Proof.
  set (st' := step st (Succeeded Create response)).
  assert (dialogOpen st' = false ∧ createPending st' = false
          ∧ formValues st' = defaultValues ∧ formErrors st' = [])
    as (Hopen & Hpend & Hform & Herrs).
  { subst st'. cbn -[invalidateQueries].
    by rewrite createPending_invalidateQueries. }
  repeat (split; [assumption|]).
  unfold handleSubmit. rewrite Hform. cbn. done.
Qed.

End TableAndForm.

(** ** Further worked instances *)

Section TopologyInstances.
Import NetworkTopology.

(** The row theorem at the switch one level below the root of [chain]. *)
Lemma hierarchy_nodes_lie_on_rows_witness :
  (∃ k : nat, 320 + 70 == 320 + 70 * ofNat k)
  ∧ nodeHeight = 40
  ∧ (nodeWidth switch5 = 50 ∨ nodeWidth switch5 = 60).
Proof.
  apply (hierarchy_nodes_lie_on_rows chain 170 320 0 260
           (rect (mkRect (childX 170 260 (260 / ofNat 1) 0) (320 + 70)
                         (nodeWidth switch5) nodeHeight 5
                         "#E0E7FF" "#6366F1" (Some switch5)))
           (mkRect (childX 170 260 (260 / ofNat 1) 0) (320 + 70)
                   (nodeWidth switch5) nodeHeight 5
                   "#E0E7FF" "#6366F1" (Some switch5))).
  - apply (list_elem_of_lookup_2 _ 9%nat). reflexivity.
  - reflexivity.
Defined.

(** The band theorem at the second server of [rack]. *)
Lemma children_stay_in_band_witness :
  ∃ key els child cx cy,
    renderDeviceHierarchy (mkDeviceNode switch5 (Some rack)) 170 320 0 260
    = g key els
    ∧ els !! 4%nat = Some child
    ∧ hierarchyOrigin child = Some (cx, cy)
    ∧ 170 - 260 / 2 <= cx + 25
    ∧ cx + 25 <= 170 + 260 / 2.
Proof.
  apply (children_stay_in_band switch5 rack 170 320 0 260 1
           (mkDeviceNode server8 (Some []))).
  - unfold Qle. cbn. lia.
  - reflexivity.
Defined.


Example rack_overlaps_in_narrow_band :
  80 / ofNat (length rack) < nodeWidth server7.
Proof. reflexivity. Qed.

(** The type-filter theorem at the offered option "network". *)
Lemma type_filter_empties_static_tiers_witness :
  networkDevices (filteredDevices (Some [firewall1; switch5]) "all" "network") = []
  ∧ diagram (Some [headquarters]) (Some [firewall1; switch5]) None "all" "network"
    = diagram (Some [headquarters]) (Some []) None "all" "all"
  ∧ allDrawn (diagram (Some [headquarters]) (Some [firewall1; switch5]) None
                "all" "network")
    = topologyDevices None.
Proof.
  apply (type_filter_empties_static_tiers (Some [headquarters])
           (Some [firewall1; switch5]) None "all" "network").
  - discriminate.
  - intros [H | [H | H]]; discriminate H.
Defined.

(** The anchoring theorem at the only top-level device of the first site. *)
Lemma top_level_devices_anchored_in_site_box_witness :
  ∃ key box rest dx dy,
    siteArea (TopologyNode.mk 1 "HQ" "site" (Some [chain])) 0
    = g key (rect box :: rest)
    ∧ rest !! 1%nat
      = Some (renderDeviceHierarchy chain dx dy 0 (rect_width box - 40))
    ∧ dy = rect_y box + 60
    ∧ rect_x box + 20 <= dx
    ∧ dx < rect_x box + rect_width box - 20.
Proof.
  apply (top_level_devices_anchored_in_site_box
           (TopologyNode.mk 1 "HQ" "site" (Some [chain])) 0 [chain] 0 chain);
    reflexivity.
Defined.

(** The parent-child theorem at a server below switch 5. *)
Lemma child_details_show_parent_witness :
  parentDevice (handleDeviceClick None (Some [switch5; server7; server8]) server7)
  = if Z.eqb (Device.id switch5) 0 then None else Some switch5.
Proof.
  apply (child_details_show_parent None [switch5; server7; server8]
           switch5 server7).
  - apply (bool_decide_unpack _). reflexivity.
  - left.
  - left.
Defined.

Example child_of_device_zero_shows_no_parent :
  let root := Device.mk 0 "root" "router" None None None None None None "active" 1 in
  let leaf := Device.mk 4 "leaf" "switch" None (Some 0%Z) None None None None "active" 1 in
  childDevices (handleDeviceClick None (Some [root; leaf]) root) = [leaf]
  ∧ parentDevice (handleDeviceClick None (Some [root; leaf]) leaf) = None.
Proof. split; reflexivity. Qed.
End TopologyInstances.

Section WorkflowInstances.
Import ChangeManagement.





Example posts_after_two_clicks_on_submit :
  posts (run listLoaded [EditForm patchServers; Click 1; Click 1]) = 1%nat.
Proof. vm_compute. reflexivity. Qed.
End WorkflowInstances.

(** ** Colours and zoom buttons *)

Section ColoursAndButtons.
Import NetworkTopology.

(** X20. Status colours a server only: the fill and stroke of any other
    device are fixed by its type, while a server that carries a risk
    indicator has its border in the indicator's colour (red for critical
    and down, orange for warning). *)
Theorem status_colours_servers_only (d d' : Device.t) (x y : Q) :
  (Device.type d ≠ "server" → Device.type d' = Device.type d →
   deviceColors d' = deviceColors d)
  ∧ (Device.type d = "server" →
     ∀ c, c ∈ pulseFills (riskIndicators d x y) → snd (deviceColors d) = c)
  ∧ (Device.type d = "server" → Device.type d' = "server" →
     Device.status d' = Device.status d → deviceColors d' = deviceColors d).
Proof.
  unfold deviceColors, riskIndicators. split; [|split].
  - intros Hns ->. by destruct (String.eqb_spec (Device.type d) "server").
  - intros ->. cbn.
    destruct (String.eqb (Device.status d) "critical"
              || String.eqb (Device.status d) "down") eqn:Hc;
      destruct (String.eqb (Device.status d) "warning") eqn:Hw;
      cbn; intros c Hin; rewrite ?elem_of_cons in Hin;
      repeat (destruct Hin as [-> | Hin]; [try reflexivity|]);
      try (by apply elem_of_nil in Hin).
    apply orb_true_iff in Hc. apply String.eqb_eq in Hw.
    rewrite !String.eqb_eq in Hc. destruct Hc; congruence.
  - by intros -> -> ->.
Qed.

(** X21. Inside the zoom range each zoom button is disabled exactly when
    its handler would leave the zoom level where it is: zoom-in at 2,
    zoom-out at 0.5; otherwise zoom-in raises and zoom-out lowers the
    level. *)
Theorem zoom_buttons_disabled_iff_no_effect (z : Q) :
  zoomInRange z →
  (zoomInDisabled z = true ↔ handleZoomIn z == z)
  ∧ (zoomOutDisabled z = true ↔ handleZoomOut z == z)
  ∧ z <= handleZoomIn z
  ∧ handleZoomOut z <= z.
Proof.
  intros [Hlo Hhi]. unfold zoomInDisabled, zoomOutDisabled, handleZoomIn,
    handleZoomOut. rewrite !Qle_bool_iff.
  destruct (Q.min_spec (z + 0.1) 2) as [[H1 ->] | [H1 ->]];
    destruct (Q.max_spec (z - 0.1) 0.5) as [[H2 ->] | [H2 ->]];
    repeat split; intros; try lra.
Qed.

(** The button theorem at the initial zoom level. *)
Lemma zoom_buttons_disabled_iff_no_effect_witness :
  (zoomInDisabled 1 = true ↔ handleZoomIn 1 == 1)
  ∧ (zoomOutDisabled 1 = true ↔ handleZoomOut 1 == 1)
  ∧ 1 <= handleZoomIn 1
  ∧ handleZoomOut 1 <= 1.
Proof.
  apply (zoom_buttons_disabled_iff_no_effect 1).
  split; unfold Qle; cbn; lia.
Defined.
End ColoursAndButtons.
